(** * extract_carandbike_new_bike_data.py: list discovery, detail extraction,
      record merge and the write-once processing loop.

    The development embeds [scripts/extract_carandbike_new_bike_data.py]
    shallowly.  Text is modelled as [string], the UTF-8 bytes of the Python
    text; [str.strip] and the regular expression classes [\s] and [\d] read
    it character by character with the Unicode classes, [str.lower] maps
    the ASCII letters.  The parsed page is
    a tree of tags and text nodes with the search operations of the HTML
    library the script calls; the JSON decoder, the HTML parser and the HTTP
    download are parameters of the sections that use them. *)

From Stdlib Require Import Ascii String ZArith Bool.
From stdpp Require Import base option list strings gmap.

Local Open Scope stdpp_scope.

(** ** Python string operations *)

Module PyStr.

(** [s.startswith(p)] *)
Fixpoint startswith (p s : string) : bool :=
  match p, s with
  | EmptyString, _ => true
  | String a p', String b s' => Ascii.eqb a b && startswith p' s'
  | String _ _, EmptyString => false
  end.

(** [needle in s] on two strings: substring test *)
Fixpoint contains (needle s : string) : bool :=
  startswith needle s ||
  match s with
  | EmptyString => false
  | String _ s' => contains needle s'
  end.

(** [s.count(c)] for a one-character pattern *)
Fixpoint count (c : ascii) (s : string) : nat :=
  match s with
  | EmptyString => 0
  | String b s' => (if Ascii.eqb c b then 1 else 0) + count c s'
  end.

(** [bool(s)]: a string is truthy when it is not empty *)
Definition truthy (s : string) : bool :=
  match s with EmptyString => false | String _ _ => true end.

(** [s.replace(old, new)]: left to right, occurrences do not overlap.
    [skip] counts the characters of a matched occurrence still to drop. *)
Fixpoint replace_from (old new : string) (skip : nat) (s : string) : string :=
  match s with
  | EmptyString => EmptyString
  | String c s' =>
      match skip with
      | S k => replace_from old new k s'
      | O =>
          if startswith old s
          then new +:+ replace_from old new (String.length old - 1) s'
          else String c (replace_from old new 0 s')
      end
  end.

(** With an empty pattern Python puts [new] around every character. *)
Fixpoint interleave (new s : string) : string :=
  match s with
  | EmptyString => new
  | String c s' => new +:+ String c (interleave new s')
  end.

Definition replace (old new s : string) : string :=
  match old with
  | EmptyString => interleave new s
  | String _ _ => replace_from old new 0 s
  end.

(** *** Characters

    A text is held as its UTF-8 bytes.  [decode] reads the character at the
    head of a text: its code point and the number of bytes it takes. *)

Definition byte (c : ascii) : N := N_of_ascii c.

(** A continuation byte, [10xxxxxx]. *)
Definition is_cont (c : ascii) : bool :=
  (128 <=? byte c)%N && (byte c <=? 191)%N.

Definition decode (s : string) : option (N * nat) :=
  match s with
  | EmptyString => None
  | String b0 s1 =>
      let n0 := byte b0 in
      if (n0 <? 128)%N then Some (n0, 1)
      else if (194 <=? n0)%N && (n0 <=? 223)%N then
        match s1 with
        | String b1 _ =>
            if is_cont b1
            then Some (((n0 - 192) * 64 + (byte b1 - 128))%N, 2)
            else None
        | _ => None
        end
      else if (224 <=? n0)%N && (n0 <=? 239)%N then
        match s1 with
        | String b1 (String b2 _) =>
            if is_cont b1 && is_cont b2
            then Some (((n0 - 224) * 4096 + (byte b1 - 128) * 64
                        + (byte b2 - 128))%N, 3)
            else None
        | _ => None
        end
      else if (240 <=? n0)%N && (n0 <=? 244)%N then
        match s1 with
        | String b1 (String b2 (String b3 _)) =>
            if is_cont b1 && is_cont b2 && is_cont b3
            then Some (((n0 - 240) * 262144 + (byte b1 - 128) * 4096
                        + (byte b2 - 128) * 64 + (byte b3 - 128))%N, 4)
            else None
        | _ => None
        end
      else None
  end.

(** White space as [str.strip], [str.isspace] and [\s] see it: the ASCII
    controls 9..13 and 28..31, the space, and the Unicode spaces. *)
Definition is_space (cp : N) : bool :=
  ((9 <=? cp) && (cp <=? 13) || (28 <=? cp) && (cp <=? 32)
   || (cp =? 133) || (cp =? 160) || (cp =? 5760)
   || (8192 <=? cp) && (cp <=? 8202)
   || (cp =? 8232) || (cp =? 8233) || (cp =? 8239) || (cp =? 8287)
   || (cp =? 12288))%N.

(** The decimal digits [\d] matches in a text pattern: the code points of
    category Nd (Unicode 14.0, the version of Python 3.11), as ranges. *)
Definition decimal_ranges : list (N * N) :=
  (
  [(48, 57); (1632, 1641); (1776, 1785); (1984, 1993); (2406, 2415);
   (2534, 2543); (2662, 2671); (2790, 2799); (2918, 2927); (3046, 3055);
   (3174, 3183); (3302, 3311); (3430, 3439); (3558, 3567); (3664, 3673);
   (3792, 3801); (3872, 3881); (4160, 4169); (4240, 4249); (6112, 6121);
   (6160, 6169); (6470, 6479); (6608, 6617); (6784, 6793); (6800, 6809);
   (6992, 7001); (7088, 7097); (7232, 7241); (7248, 7257); (42528, 42537);
   (43216, 43225); (43264, 43273); (43472, 43481); (43504, 43513);
   (43600, 43609); (44016, 44025); (65296, 65305); (66720, 66729);
   (68912, 68921); (69734, 69743); (69872, 69881); (69942, 69951);
   (70096, 70105); (70384, 70393); (70736, 70745); (70864, 70873);
   (71248, 71257); (71360, 71369); (71472, 71481); (71904, 71913);
   (72016, 72025); (72784, 72793); (73040, 73049); (73120, 73129);
   (92768, 92777); (92864, 92873); (93008, 93017); (120782, 120831);
   (123200, 123209); (123632, 123641); (125264, 125273); (130032, 130041)])%N.

Definition is_digit (cp : N) : bool :=
  existsb (fun r => (fst r <=? cp)%N && (cp <=? snd r)%N) decimal_ranges.

(** The number of bytes of the character at the head of [s] when it is in
    the class [p], else 0. *)
Definition char_len (p : N -> bool) (s : string) : nat :=
  match decode s with
  | Some (cp, n) => if p cp then n else 0
  | None => 0
  end.

(** [skip] counts the bytes of an accepted character still to pass. *)
Fixpoint lstrip_from (skip : nat) (s : string) : string :=
  match s with
  | EmptyString => EmptyString
  | String _ s' =>
      match skip with
      | S k => lstrip_from k s'
      | O =>
          match char_len is_space s with
          | O => s
          | S k => lstrip_from k s'
          end
      end
  end.

(** [s.lstrip()] *)
Definition lstrip (s : string) : string := lstrip_from 0 s.

(** [s] holds white space only. *)
Fixpoint all_space_from (skip : nat) (s : string) : bool :=
  match s with
  | EmptyString => true
  | String _ s' =>
      match skip with
      | S k => all_space_from k s'
      | O =>
          match char_len is_space s with
          | O => false
          | S k => all_space_from k s'
          end
      end
  end.

Definition all_space (s : string) : bool := all_space_from 0 s.

(** [s.rstrip()]: the text up to the white space it ends with. *)
Fixpoint rstrip (s : string) : string :=
  match s with
  | EmptyString => EmptyString
  | String c s' => if all_space s then EmptyString else String c (rstrip s')
  end.

(** [s.strip()] *)
Definition strip (s : string) : string := rstrip (lstrip s).

Definition lower_char (c : ascii) : ascii :=
  let n := nat_of_ascii c in
  if Nat.leb 65 n && Nat.leb n 90 then ascii_of_nat (n + 32) else c.

(** [s.lower()] *)
Fixpoint lower (s : string) : string :=
  match s with
  | EmptyString => EmptyString
  | String c s' => String (lower_char c) (lower s')
  end.

(** [sep.join(l)] *)
Definition join (sep : string) (l : list string) : string :=
  String.concat sep l.

(** Longest prefix made of characters [p] accepts, and the rest; [p] gives
    the number of bytes of an accepted character at the head, else 0. *)
Fixpoint span_from (p : string -> nat) (skip : nat) (s : string) : string * string :=
  match s with
  | EmptyString => (EmptyString, EmptyString)
  | String c s' =>
      match skip with
      | S k => let '(a, b) := span_from p k s' in (String c a, b)
      | O =>
          match p s with
          | O => (EmptyString, s)
          | S k => let '(a, b) := span_from p k s' in (String c a, b)
          end
      end
  end.

Definition span (p : string -> nat) (s : string) : string * string :=
  span_from p 0 s.

Fixpoint drop (n : nat) (s : string) : string :=
  match n, s with
  | O, _ => s
  | S _, EmptyString => EmptyString
  | S k, String _ s' => drop k s'
  end.

End PyStr.

(** ** The list-page price pattern

    [re.search] of the pattern: the rupee sign, [\s] any number of times,
    then group 1, made of one or more of [\d] and the comma, an optional dot
    and any number of [\d]; the script keeps [group(1)].  Every
    quantifier of the pattern is greedy and no later part can fail after
    [[\d,]+] matched, so the first position where the pattern matches and the
    longest runs give the match Python reports. *)

Module PriceRe.
Import PyStr.

Definition rupee : string := "₹".

(** One character of the class [[\d,]]. *)
Definition digit_or_comma (s : string) : nat :=
  match s with
  | String c _ => if Ascii.eqb c ","%char then 1 else char_len is_digit s
  | EmptyString => 0
  end.

(** The pattern anchored at the start of [s]; the result is group 1. *)
Definition match_here (s : string) : option string :=
  if startswith rupee s then
    let r := lstrip (drop (String.length rupee) s) in
    let '(g, r1) := span digit_or_comma r in
    match g with
    | EmptyString => None
    | _ =>
        let '(dot, r2) :=
          match r1 with
          | String c r2 =>
              if Ascii.eqb c "."%char then (String c EmptyString, r2)
              else (EmptyString, r1)
          | EmptyString => (EmptyString, r1)
          end in
        Some (g +:+ dot +:+ fst (span (char_len is_digit) r2))
    end
  else None.

(** [re.search]: the leftmost position where the pattern matches. *)
Fixpoint search (s : string) : option string :=
  match match_here s with
  | Some g => Some g
  | None =>
      match s with
      | EmptyString => None
      | String _ s' => search s'
      end
  end.

End PriceRe.

(** ** The parsed page

    A page is a tree of tags and text nodes.  A tag carries its name, its
    [class] attribute split into tokens (the one multi-valued attribute the
    script looks at; [None] when the tag has no [class]) and its other
    attributes as name/value pairs. *)

#[local] Set Warnings "-register-all".

Inductive node : Type :=
| Text (s : string)
| Elem (tag : string) (cls : option (list string))
       (attrs : list (string * string)) (children : list node).

Module Soup.
Import PyStr.

Definition children_of (n : node) : list node :=
  match n with
  | Text _ => []
  | Elem _ _ _ cs => cs
  end.

(** All nodes below [n], in document order; [n] itself is not one. *)
Fixpoint descendants (n : node) : list node :=
  match n with
  | Text _ => []
  | Elem _ _ _ cs => flat_map (fun c => c :: descendants c) cs
  end.

Definition is_tag (name : string) (n : node) : bool :=
  match n with
  | Text _ => false
  | Elem t _ _ _ => String.eqb t name
  end.

(** [tag.get(name)]: the first value stored under [name] *)
Fixpoint assoc (name : string) (attrs : list (string * string)) : option string :=
  match attrs with
  | [] => None
  | (k, v) :: rest => if String.eqb k name then Some v else assoc name rest
  end.

Definition get_attr (name : string) (n : node) : option string :=
  match n with
  | Text _ => None
  | Elem _ _ attrs _ => assoc name attrs
  end.

Definition get_class (n : node) : option (list string) :=
  match n with
  | Text _ => None
  | Elem _ cls _ _ => cls
  end.

(** A callable filter on the multi-valued [class]: the library calls it on
    each token, then on the tokens joined by one space; on a tag without
    [class] it calls it on [None]. *)
Definition class_matches_fn (f : option string -> bool) (n : node) : bool :=
  match get_class n with
  | None => f None
  | Some toks => existsb (fun t => f (Some t)) toks || f (Some (join " " toks))
  end.

(** A string filter that holds a space matches the literal attribute value
    only: no token can equal it, so the joined tokens must. *)
Definition class_matches_str (want : string) (n : node) : bool :=
  match get_class n with
  | None => false
  | Some toks =>
      existsb (fun t => String.eqb t want) toks || String.eqb (join " " toks) want
  end.

(** A callable filter on a single-valued attribute. *)
Definition attr_matches_fn (name : string) (f : option string -> bool) (n : node) : bool :=
  f (get_attr name n).

(** A string filter on a single-valued attribute: equality. *)
Definition attr_matches_str (name want : string) (n : node) : bool :=
  match get_attr name n with
  | None => false
  | Some v => String.eqb v want
  end.

(** [tag.find_all(name, ...)]: the matching tags below [n], document order *)
Definition find_all (name : string) (p : node -> bool) (n : node) : list node :=
  filter (fun d => is_tag name d && p d = true) (descendants n).

(** [tag.find_all(name, recursive=False)]: among the children only *)
Definition find_all_children (name : string) (n : node) : list node :=
  filter (fun d => is_tag name d = true) (children_of n).

(** [tag.find(name, ...)]: the first match, or [None] *)
Definition find (name : string) (p : node -> bool) (n : node) : option node :=
  head (find_all name p n).

(** The text nodes below [n], in document order. *)
Definition strings (n : node) : list string :=
  flat_map (fun d => match d with Text s => [s] | Elem _ _ _ _ => [] end)
           (descendants n).

(** [tag.get_text()] *)
Definition get_text (n : node) : string := join "" (strings n).

(** [tag.get_text(strip=True)]: every piece stripped, empty pieces left out *)
Definition get_text_strip (n : node) : string :=
  join "" (filter (fun s => truthy s = true) (map strip (strings n))).

(** [tag.string]: the text of a tag whose only child is a text node, or whose
    only child is a tag that has such a [string] *)
Fixpoint node_string (n : node) : option string :=
  match n with
  | Text s => Some s
  | Elem _ _ _ [c] => node_string c
  | Elem _ _ _ _ => None
  end.

End Soup.

(** ** List discovery *)

(** One discovered bike: the dictionary [extract_list_item] and the link
    scan build.  [title] and [link] are always set; [image_link] and
    [exshowroom_price] are keys that may be missing. *)
Record bike : Type := Bike {
  title : string;
  link : string;
  image_link : option string;
  exshowroom_price : option string
}.

Module Discovery.
Import PyStr Soup.

Definition base_url : string := "https://www.carandbike.com".

(** [href if href.startswith("http") else f"https://www.carandbike.com{href}"] *)
Definition absolutize (href : string) : string :=
  if startswith "http" href then href else base_url +:+ href.

(** [lambda x: x and "js-tracker" in x] *)
Definition has_js_tracker (x : option string) : bool :=
  match x with
  | None => false
  | Some s => truthy s && contains "js-tracker" s
  end.

(** [lambda x: x and "grid" in x and "gap-4" in x] *)
Definition is_grid_class (x : option string) : bool :=
  match x with
  | None => false
  | Some s => truthy s && contains "grid" s && contains "gap-4" s
  end.

(** [lambda x: x and "/bikes/" in x] *)
Definition is_bike_href (x : option string) : bool :=
  match x with
  | None => false
  | Some s => truthy s && contains "/bikes/" s
  end.

Definition any_tag (_ : node) : bool := true.

(** [extract_list_item(li_item)]; [None] is Python's [None]. *)
Definition extract_list_item (li_item : node) : option bike :=
  let title_tag :=
    match find "a" (class_matches_fn has_js_tracker) li_item with
    | Some a => Some a
    | None => find "a" any_tag li_item
    end in
  match title_tag with
  | Some a =>
      let href := default "" (get_attr "href" a) in
      let img := (fun i => default "" (get_attr "src" i)) <$> find "img" any_tag li_item in
      let price := PriceRe.search (get_text li_item) in
      Some {| title := get_text_strip a;
              link := absolutize href;
              image_link := img;
              exshowroom_price := price |}
  | None => None
  end.

(** Strategy A: the [li] children of every grid [ul].  [if bike:] holds
    for every dictionary the extractor returns, since it has two keys. *)
Definition grid_items (soup : node) : list node :=
  flat_map (find_all_children "li") (find_all "ul" (class_matches_fn is_grid_class) soup).

Definition strategy_a (soup : node) : list bike :=
  omap extract_list_item (grid_items soup).

(** The dictionary strategy B appends for an accepted link. *)
Definition link_bike (a : node) (href : string) : bike :=
  {| title := get_text_strip a;
     link := absolutize href;
     image_link := None;
     exshowroom_price := None |}.

(** One turn of the loop of strategy B on [(bikes, seen_links)].
    [link.get('href')] is [None] on a tag without [href]: [None] is in no
    set of strings and [href.count] then raises, the [None] result here. *)
Definition link_step (a : node) (st : list bike * gset string)
  : option (list bike * gset string) :=
  let '(bikes, seen_links) := st in
  match get_attr "href" a with
  | None => None
  | Some href =>
      if bool_decide (href ∈ seen_links) then Some st
      else if Nat.ltb 2 (count "/"%char href) then
        let t := get_text_strip a in
        if truthy t
        then Some (bikes ++ [link_bike a href], seen_links ∪ {[href]})
        else Some st
      else Some st
  end.

Fixpoint link_loop (links : list node) (st : list bike * gset string)
  : option (list bike * gset string) :=
  match links with
  | [] => Some st
  | a :: rest => st' ← link_step a st; link_loop rest st'
  end.

Definition bike_links (soup : node) : list node :=
  find_all "a" (attr_matches_fn "href" is_bike_href) soup.

Definition strategy_b (soup : node) : option (list bike) :=
  fst <$> link_loop (bike_links soup) ([], ∅).

(** The discovery part of [fetch_bike_links_playwright], from the parsed
    content of the rendered page on. *)
Definition fetch_bike_links_playwright (soup : node) : option (list bike) :=
  let bikes := strategy_a soup in
  match bikes with
  | [] => strategy_b soup
  | _ :: _ => Some bikes
  end.

End Discovery.

(** ** Python values

    What [json.loads] returns and what [json.dump] writes.  A dictionary is
    a list of key/value pairs in insertion order; assigning to a key that is
    there keeps its place. *)

Inductive pyval : Type :=
| PNone
| PBool (b : bool)
| PInt (z : Z)
| PFloat (literal : string)
| PStr (s : string)
| PList (l : list pyval)
| PDict (d : list (string * pyval)).

Definition pydict : Type := list (string * pyval).

Module Py.
Import PyStr.

Section Dict.
Context {V : Type}.

(** [d.get(k)] as an option *)
Fixpoint dict_get (d : list (string * V)) (k : string) : option V :=
  match d with
  | [] => None
  | (k', v) :: rest => if String.eqb k' k then Some v else dict_get rest k
  end.

(** [k in d] *)
Definition dict_has (d : list (string * V)) (k : string) : bool :=
  match dict_get d k with Some _ => true | None => false end.

(** [d[k] = v] *)
Fixpoint dict_set (d : list (string * V)) (k : string) (v : V) : list (string * V) :=
  match d with
  | [] => [(k, v)]
  | (k', v') :: rest =>
      if String.eqb k' k then (k', v) :: rest
      else (k', v') :: dict_set rest k v
  end.
End Dict.

(** [x == PStr s] for a string on one side *)
Definition eq_str (s : string) (x : pyval) : bool :=
  match x with
  | PStr s' => String.eqb s s'
  | _ => false
  end.

(** ['key' in v]; [None] when Python raises [TypeError] *)
Definition py_in (key : string) (v : pyval) : option bool :=
  match v with
  | PDict d => Some (dict_has d key)
  | PList l => Some (existsb (eq_str key) l)
  | PStr s => Some (contains key s)
  | PNone | PBool _ | PInt _ | PFloat _ => None
  end.

(** [v['key']]: only a dictionary that has the key answers *)
Definition py_getitem (v : pyval) (key : string) : option pyval :=
  match v with
  | PDict d => dict_get d key
  | _ => None
  end.

(** [v[0]]: the first element of a list, the first character of a string;
    the keys of a decoded dictionary are strings, so [0] is never one *)
Definition py_getitem0 (v : pyval) : option pyval :=
  match v with
  | PList (x :: _) => Some x
  | PStr (String c _) => Some (PStr (String c EmptyString))
  | _ => None
  end.

(** [v.get('key')]: only a dictionary has [get]; a missing key gives [None] *)
Definition py_get (v : pyval) (key : string) : option pyval :=
  match v with
  | PDict d => Some (default PNone (dict_get d key))
  | _ => None
  end.

End Py.

(** ** A [try] block over the record being filled

    The body of [try: ... except Exception] in [extract_detailed_bike_info]
    assigns into [bike_details] as it goes; when a statement raises, what was
    assigned before stays.  A computation takes the dictionary and returns it
    with either a value or the fact that it raised. *)

Module Try.

Definition t (A : Type) : Type := pydict -> pydict * option A.

Definition ret {A} (a : A) : t A := fun d => (d, Some a).

Definition bind {A B} (m : t A) (k : A -> t B) : t B :=
  fun d =>
    match m d with
    | (d', Some a) => k a d'
    | (d', None) => (d', None)
    end.

(** A Python expression that may raise, lifted into the block. *)
Definition eval {A} (o : option A) : t A := fun d => (d, o).

(** [bike_details[k] = v] *)
Definition assign (k : string) (v : pyval) : t unit :=
  fun d => (Py.dict_set d k v, Some tt).

(** [if c: body] *)
Definition when (c : bool) (body : t unit) : t unit :=
  if c then body else ret tt.

(** [except Exception]: the record as the body left it *)
Definition except {A} (m : t A) (d : pydict) : pydict := fst (m d).

End Try.

(** [m] keeps [P]: the record after [m], raised or not, satisfies [P] when
    the record before did. *)
Definition keeps {A} (P : pydict -> Prop) (m : Try.t A) : Prop :=
  forall d, P d -> P (fst (m d)).

Declare Scope try_scope.
Delimit Scope try_scope with try.
Notation "'stmt' x <~ m ~; k" := (Try.bind m (fun x => k))
  (at level 10, x name, m at level 100, k at level 200, only parsing) : try_scope.

(** ** Detail extraction *)

Section Detail.
Import PyStr Soup Py.

(** [json.loads] on a string: the decoded value, or [None] when it raises. *)
Variable json_loads : string -> option pyval.

(** [soup.find('script', {'id': 'product-schema-script',
                          'type': 'application/ld+json'})] *)
Definition find_product_schema (soup : node) : option node :=
  find "script"
       (fun n => attr_matches_str "id" "product-schema-script" n
                 && attr_matches_str "type" "application/ld+json" n)
       soup.

(** [json.loads(json_ld_script.string)]; on a script without a single
    text the argument is [None] and [json.loads] raises. *)
Definition load_script (script : node) : option pyval :=
  s ← node_string script; json_loads s.

(** [engine_data[0] if engine_data else {}] when it is a list *)
Definition first_engine (engine_data : pyval) : pyval :=
  match engine_data with
  | PList (x :: _) => x
  | PList [] => PDict []
  | other => other
  end.

(** [if '@graph' in data: data = data['@graph'][0]] *)
Definition unwrap_graph (data : pyval) : Try.t pyval :=
  (stmt has_graph <~ Try.eval (py_in "@graph" data) ~;
   if has_graph : bool
   then Try.eval (g ← py_getitem data "@graph"; py_getitem0 g)
   else Try.ret data)%try.

(** [bike_details['basic_info'] = {'name': data.get('name'), ...}] *)
Definition basic_info_block (data : pyval) : Try.t unit :=
  (stmt name <~ Try.eval (py_get data "name") ~;
   stmt manufacturer <~ Try.eval (py_get data "manufacturer") ~;
   stmt model <~ Try.eval (py_get data "model") ~;
   stmt body_type <~ Try.eval (py_get data "bodyType") ~;
   stmt description <~ Try.eval (py_get data "description") ~;
   stmt sku <~ Try.eval (py_get data "sku") ~;
   Try.assign "basic_info"
     (PDict [("name", name); ("manufacturer", manufacturer); ("model", model);
             ("body_type", body_type); ("description", description);
             ("sku", sku)]))%try.

(** [if 'vehicleEngine' in data: ...] *)
Definition engine_block (data : pyval) : Try.t unit :=
  (stmt has_engine <~ Try.eval (py_in "vehicleEngine" data) ~;
   Try.when has_engine
     (stmt engine_data <~ Try.eval (py_getitem data "vehicleEngine") ~;
      stmt engine_data <~ Try.ret (first_engine engine_data) ~;
      stmt displacement <~ Try.eval (py_get engine_data "engineDisplacement") ~;
      stmt power <~ Try.eval (py_get engine_data "enginePower") ~;
      stmt torque <~ Try.eval (py_get engine_data "torque") ~;
      stmt fuel_type <~ Try.eval (py_get engine_data "fuelType") ~;
      Try.assign "engine"
        (PDict [("displacement", displacement); ("power", power);
                ("torque", torque); ("fuel_type", fuel_type)])))%try.

(** [if 'offers' in data: ...] *)
Definition price_block (data : pyval) : Try.t unit :=
  (stmt has_offers <~ Try.eval (py_in "offers" data) ~;
   Try.when has_offers
     (stmt offer <~ Try.eval (py_getitem data "offers") ~;
      stmt value <~ Try.eval (py_get offer "price") ~;
      stmt currency <~ Try.eval (py_get offer "priceCurrency") ~;
      stmt availability <~ Try.eval (py_get offer "availability") ~;
      Try.assign "price"
        (PDict [("value", value); ("currency", currency);
                ("availability", availability)])))%try.

(** [if 'brand' in data: ...] *)
Definition brand_block (data : pyval) : Try.t unit :=
  (stmt has_brand <~ Try.eval (py_in "brand" data) ~;
   Try.when has_brand
     (stmt brand <~ Try.eval (py_getitem data "brand") ~;
      stmt brand_name <~ Try.eval (py_get brand "name") ~;
      Try.assign "brand" (PDict [("name", brand_name)])))%try.

(** The body of the [try] block, statement by statement. *)
Definition json_ld_body (script : node) : Try.t unit :=
  (stmt data <~ Try.eval (load_script script) ~;
   stmt data <~ unwrap_graph data ~;
   stmt _ <~ basic_info_block data ~;
   stmt _ <~ engine_block data ~;
   stmt _ <~ price_block data ~;
   brand_block data)%try.

(** [lambda x: x and "contentCard" in x] *)
Definition is_content_card (x : option string) : bool :=
  match x with
  | None => false
  | Some s => truthy s && contains "contentCard" s
  end.

(** The rows of every content card, cards and rows in document order. *)
Definition spec_rows (soup : node) : list node :=
  flat_map (find_all "div" (class_matches_str "flex justify-between"))
           (find_all "div" (class_matches_fn is_content_card) soup).

(** [specs[key] = val] for a row with exactly two [div]s below it. *)
Definition add_row (specs : list (string * string)) (row : node)
  : list (string * string) :=
  match find_all "div" Discovery.any_tag row with
  | [c0; c1] => dict_set specs (get_text_strip c0) (get_text_strip c1)
  | _ => specs
  end.

Definition scrape_specs (soup : node) : list (string * string) :=
  fold_left add_row (spec_rows soup) [].

Definition specs_value (specs : list (string * string)) : pyval :=
  PDict (map (fun kv => (fst kv, PStr (snd kv))) specs).

(** [bike_details.setdefault('fuel', {})['efficiency'] = v]; an item
    assignment into a value that is no dictionary raises. *)
Definition set_efficiency (bike_details : pydict) (v : string) : option pydict :=
  match dict_get bike_details "fuel" with
  | None => Some (dict_set bike_details "fuel" (PDict [("efficiency", PStr v)]))
  | Some (PDict fuel) =>
      Some (dict_set bike_details "fuel" (PDict (dict_set fuel "efficiency" (PStr v))))
  | Some _ => None
  end.

(** [for k, v in specs.items(): if 'mileage' in k.lower(): ...] *)
Fixpoint fill_mileage (items : list (string * string)) (bike_details : pydict)
  : option pydict :=
  match items with
  | [] => Some bike_details
  | (k, v) :: rest =>
      if contains "mileage" (lower k)
      then d ← set_efficiency bike_details v; fill_mileage rest d
      else fill_mileage rest bike_details
  end.

(** The record after the JSON-LD part: the [try] block run on the empty
    record when the script tag is there. *)
Definition structured_part (soup : node) : pydict :=
  match find_product_schema soup with
  | Some script => Try.except (json_ld_body script) []
  | None => []
  end.

(** The part after the [try] block, on the record it left and the scraped
    mapping. *)
Definition fallback_part (specs : list (string * string)) (bike_details : pydict)
  : option pydict :=
  match specs with
  | [] => Some bike_details
  | _ :: _ =>
      let bike_details := dict_set bike_details "scraped_specs" (specs_value specs) in
      if negb (dict_has bike_details "mileage")
      then fill_mileage specs bike_details
      else Some bike_details
  end.

(** [extract_detailed_bike_info(soup)]; [None] when an exception leaves
    the function. *)
Definition extract_detailed_bike_info (soup : node) : option pydict :=
  fallback_part (scrape_specs soup) (structured_part soup).

End Detail.

(** ** Merge and the processing loop of [main] *)

(** *** Paths

    [Path(dir) / name] as [pathlib] builds it on a POSIX system, and the
    text it prints. *)

Module PyPath.
Import PyStr.

(** [s.split('/')] *)
Fixpoint split_slash (s : string) : list string :=
  match s with
  | EmptyString => [EmptyString]
  | String c s' =>
      if Ascii.eqb c "/"%char then EmptyString :: split_slash s'
      else
        match split_slash s' with
        | x :: xs => String c x :: xs
        | [] => [String c EmptyString]
        end
  end.

(** The components of a path text: empty components and [.] are dropped. *)
Definition parts (s : string) : list string :=
  filter (fun x => x <> EmptyString /\ x <> ".") (split_slash s).

(** The root of a path text: none for a relative one, two slashes when it
    starts with exactly two, one slash otherwise. *)
Definition root (s : string) : string :=
  if startswith "/" s then
    if startswith "//" s && negb (startswith "///" s) then "//" else "/"
  else EmptyString.

(** [str(path)] of a path given by root and components. *)
Definition text (r : string) (ps : list string) : string :=
  match r, ps with
  | EmptyString, [] => "."
  | _, _ => r +:+ join "/" ps
  end.

(** [str(Path(dir) / name)]: an absolute [name] replaces [dir]. *)
Definition join_text (dir name : string) : string :=
  match root name with
  | EmptyString => text (root dir) (parts dir ++ parts name)
  | r => text r (parts name)
  end.

End PyPath.

(** The two directories of the script: record files and cached pages, each a
    map from the path to what the file holds.  A file is named by the text of
    its path as [pathlib] prints it, so two path expressions that [pathlib]
    prints alike are one file.  [pathlib] keeps a [..] component: such a path
    names a file only below a directory that exists, and the script makes no
    directory besides the two it uses. *)
Record files : Type := Files {
  records : gmap string pydict;
  pages : gmap string string
}.

Section Main.
Import PyStr Py.

Variable json_loads : string -> option pyval.

(** [BeautifulSoup(f, 'html.parser')] *)
Variable parse_html : string -> node.

(** [requests.get(url, ...)], [raise_for_status] and the write of
    [resp.text] at [output_path]: the text written, or [None] when one of
    them raised. *)
Variable download : string -> string -> option string.

Definition output_dir : string := "data/new_bike_details".
Definition temp_dir : string := ".temp/bikes_html".

(** [dir / name] *)
Definition path_join (dir name : string) : string := PyPath.join_text dir name.

(** [title.replace(' ', '_').replace('/', '_') + ".json"] *)
Definition safe_filename (title : string) : string :=
  replace "/" "_" (replace " " "_" title) +:+ ".json".

(** [title.replace(' ', '_') + ".html"] *)
Definition html_name (title : string) : string :=
  replace " " "_" title +:+ ".html".

(** [download_page(url, output_path)] *)
Definition download_page (url output_path : string) (fs : files) : files * bool :=
  match download url output_path with
  | Some text =>
      ({| records := records fs; pages := <[output_path := text]> (pages fs) |}, true)
  | None => (fs, false)
  end.

(** The merge of the list entry into the extracted record. *)
Definition merge_list_info (b : bike) (details : pydict) : option pydict :=
  let details :=
    if negb (dict_has details "basic_info")
    then dict_set details "basic_info" (PDict [])
    else details in
  details ←
    match dict_get details "basic_info" with
    | Some (PDict basic_info) =>
        Some (dict_set details "basic_info"
                       (PDict (dict_set basic_info "name" (PStr (title b)))))
    | _ => None
    end;
  Some
    (match exshowroom_price b with
     | Some p =>
         if negb (dict_has details "price")
         then dict_set details "price"
                       (PDict [("value", PStr p); ("currency", PStr "INR")])
         else details
     | None => details
     end).

(** One turn of [for bike in tqdm(bikes_list)] on the files and
    [success_count]; [None] when an exception ends the run. *)
Definition process_bike (b : bike) (st : files * nat) : option (files * nat) :=
  let '(fs, success_count) := st in
  let json_path := path_join output_dir (safe_filename (title b)) in
  if bool_decide (is_Some (records fs !! json_path)) then Some st
  else
    let html_filename := path_join temp_dir (html_name (title b)) in
    let '(fs, ok) :=
      if bool_decide (is_Some (pages fs !! html_filename)) then (fs, true)
      else download_page (link b) html_filename fs in
    if ok then
      text ← pages fs !! html_filename;
      details ← extract_detailed_bike_info json_loads (parse_html text);
      details ← merge_list_info b details;
      Some ({| records := <[json_path := details]> (records fs);
               pages := pages fs |},
            S success_count)
    else Some st.

Fixpoint process_bikes (bikes_list : list bike) (st : files * nat)
  : option (files * nat) :=
  match bikes_list with
  | [] => Some st
  | b :: rest => st' ← process_bike b st; process_bikes rest st'
  end.

(** The loop of [main] from a file state, with [success_count = 0]. *)
Definition run (bikes_list : list bike) (fs : files) : option (files * nat) :=
  process_bikes bikes_list (fs, 0).

End Main.

(** ** The head of [main]: discovery, the limit and the saved list *)

(** [l[:n]]: a negative [n] counts from the end and stops at the start. *)
Definition slice_to (n : Z) (l : list bike) : list bike :=
  if (0 <=? n)%Z then take (Z.to_nat n) l
  else take (length l - Z.to_nat (- n)) l.

(** [if args.limit: bikes_list = bikes_list[:args.limit]]; [--limit] has no
    default, and the integer 0 is as false as [None]. *)
Definition apply_limit (limit : option Z) (bikes_list : list bike) : list bike :=
  match limit with
  | None => bikes_list
  | Some n => if (n =? 0)%Z then bikes_list else slice_to n bikes_list
  end.

(** What a call of [main] leaves: the list written to
    [data/new_bikes_list.json] ([None] when the file was not written), the
    record and page files, and [success_count]. *)
Record outcome : Type := Outcome {
  saved_list : option (list bike);
  out_files : files;
  saved : nat
}.

Section MainHead.

Variable json_loads : string -> option pyval.
Variable parse_html : string -> node.
Variable download : string -> string -> option string.

(** [main()] from the parsed content of the rendered listing page and the
    files on disk; [None] when an exception ends it. *)
Definition main (limit : option Z) (soup : node) (fs : files) : option outcome :=
  bikes_list ← Discovery.fetch_bike_links_playwright soup;
  match bikes_list with
  | [] => Some {| saved_list := None; out_files := fs; saved := 0 |}
  | _ :: _ =>
      let bikes_list := apply_limit limit bikes_list in
      st ← run json_loads parse_html download bikes_list fs;
      Some {| saved_list := Some bikes_list; out_files := st.1; saved := st.2 |}
  end.

End MainHead.


(** ** Vocabulary of the statements *)

Section Vocabulary.
Import PyStr Py.

(** The four keys the [try] block assigns, each to a dictionary. *)
Definition structured_key (k : string) : Prop :=
  k = "basic_info" \/ k = "engine" \/ k = "price" \/ k = "brand".

(** [P] survives an assignment of a dictionary to the key [k]. *)
Definition stable_at (k : string) (P : pydict -> Prop) : Prop :=
  forall d v, P d -> P (dict_set d k (PDict v)).

(** [d.get(k)] on a dictionary: the value, or Python's [None] *)
Definition get_or_none (d : pydict) (k : string) : pyval :=
  default PNone (dict_get d k).

(** [P] survives an assignment of a dictionary to one of the four keys. *)
Definition assign_stable (P : pydict -> Prop) : Prop :=
  forall d k v, structured_key k -> P d -> P (dict_set d k (PDict v)).

(** Every value of the record is a dictionary. *)
Definition dicts_only (d : pydict) : Prop :=
  forall k v, dict_get d k = Some v -> exists x, v = PDict x.

(** [{'efficiency': v}] *)
Definition efficiency_entry (v : string) : pyval :=
  PDict [("efficiency", PStr v)].

(** The test of the mileage loop on one item of the scraped mapping:
    ['mileage' in k.lower()] *)
Definition is_mileage (kv : string * string) : Prop :=
  contains "mileage" (lower (fst kv)) = true.

#[global] Instance is_mileage_dec kv : Decision (is_mileage kv) :=
  bool_eq_dec _ _.

(** The [basic_info] written from the object [data]. *)
Definition basic_info_of (data : pydict) : pydict :=
  [("name", get_or_none data "name");
   ("manufacturer", get_or_none data "manufacturer");
   ("model", get_or_none data "model");
   ("body_type", get_or_none data "bodyType");
   ("description", get_or_none data "description");
   ("sku", get_or_none data "sku")].

(** The [engine] written from [data], if any: none without
    [vehicleEngine], none when the engine value is no object (its [get]
    raises), four keys otherwise. *)
Definition engine_of (data : pydict) : option pyval :=
  match dict_get data "vehicleEngine" with
  | None => None
  | Some ve =>
      match first_engine ve with
      | PDict e =>
          Some (PDict [("displacement", get_or_none e "engineDisplacement");
                       ("power", get_or_none e "enginePower");
                       ("torque", get_or_none e "torque");
                       ("fuel_type", get_or_none e "fuelType")])
      | _ => None
      end
  end.

(** The record file and the cached page of a list entry, as the loop names
    them. *)
Definition record_path (b : bike) : string :=
  path_join output_dir (safe_filename (title b)).

Definition page_path (b : bike) : string :=
  path_join temp_dir (html_name (title b)).

(** A list entry the loop passes over without writing: its record file is
    there, or its page is not cached and cannot be downloaded. *)
Definition done_or_stuck (download : string -> string -> option string)
    (b : bike) (fs : files) : Prop :=
  is_Some (records fs !! record_path b)
  \/ (pages fs !! page_path b = None /\ download (link b) (page_path b) = None).

(** No two entries of the list share a cached page without sharing the
    record file. *)
Definition alias_free (bikes_list : list bike) : Prop :=
  forall b b', b ∈ bikes_list -> b' ∈ bikes_list ->
    page_path b = page_path b' -> record_path b = record_path b'.

End Vocabulary.

(** ** Sample pages and decoders *)

Module Samples.

(** A decoder that rejects every text. *)
Definition loads_none (_ : string) : option pyval := None.

(** A decoder that knows one text, an object holding only a name. *)
Definition quote : string := String (ascii_of_nat 34) EmptyString.

Definition name_only_text : string :=
  "{" +:+ quote +:+ "name" +:+ quote +:+ ": " +:+ quote +:+ "CB350" +:+ quote +:+ "}".

Definition name_only_block : pydict := [("name", PStr "CB350")].

Definition loads_name_only (s : string) : option pyval :=
  if String.eqb s name_only_text then Some (PDict name_only_block) else None.

Definition schema_script (text : string) : node :=
  Elem "script" None
       [("id", "product-schema-script"); ("type", "application/ld+json")]
       [Text text].

(** One row of a spec table: two columns in a row container. *)
Definition spec_row (label value : string) : node :=
  Elem "div" (Some ["flex"; "justify-between"]) []
       [Elem "div" None [] [Text label]; Elem "div" None [] [Text value]].

Definition spec_card (rows : list node) : node :=
  Elem "div" (Some ["contentCard"; "p-4"]) [] rows.

Definition document (body : list node) : node :=
  Elem "[document]" None [] body.

(** A detail page whose script does not decode and whose table has no
    mileage row. *)
Definition broken_block_page : node :=
  document [schema_script "{not json"; spec_card [spec_row "Power" "20 bhp"]].

(** A detail page with two mileage rows. *)
Definition two_mileage_page : node :=
  document [spec_card [spec_row "Mileage (City)" "35 kmpl";
                       spec_row "Highway Mileage" "45 kmpl"]].

(** A detail page whose block holds a name and nothing else. *)
Definition name_only_page : node :=
  document [schema_script name_only_text].

Definition cb350 : bike :=
  {| title := "Honda CB350";
     link := "https://www.carandbike.com/bikes/honda/cb350";
     image_link := None;
     exshowroom_price := Some "2,05,000" |}.

(** A listing page with two grids that both list the same bike. *)
Definition cb350_item : node :=
  Elem "li" None []
       [Elem "a" (Some ["js-tracker"]) [("href", "/bikes/honda/cb350")]
             [Text "Honda CB350"]].

Definition grid (items : list node) : node :=
  Elem "ul" (Some ["grid"; "grid-cols-1"; "md:grid-cols-3"; "gap-4"]) [] items.

Definition two_grids_page : node :=
  document [grid [cb350_item]; grid [cb350_item]].

(** A listing page whose only grid item wraps an image in its link. *)
Definition image_item : node :=
  Elem "li" None []
       [Elem "a" None [("href", "/bikes/honda/cb350")]
             [Elem "img" None [("src", "/img/cb350.png")] []]].

Definition image_item_page : node := document [grid [image_item]].

(** A page without grid that links one bike by a relative and by an absolute
    target. *)
Definition relative_absolute_page : node :=
  document
    [Elem "a" None [("href", "/bikes/honda/cb350")] [Text "Honda CB350"];
     Elem "a" None [("href", "https://www.carandbike.com/bikes/honda/cb350")]
          [Text "CB350"]].

(** Two list entries; only the page of the first can be downloaded. *)
Definition hness : bike :=
  {| title := "Honda Hness/DLX";
     link := "https://www.carandbike.com/bikes/honda/hness";
     image_link := None;
     exshowroom_price := None |}.

Definition download_cb350 (url output_path : string) : option string :=
  if String.eqb url (link cb350) then Some name_only_text else None.

Definition parse_name_only (text : string) : node :=
  document [schema_script text].

Definition no_files : files := {| records := ∅; pages := ∅ |}.

(** The files a first run over the two entries leaves. *)
Definition after_first_run : files :=
  match run loads_name_only parse_name_only download_cb350 [cb350; hness] no_files with
  | Some (fs, _) => fs
  | None => no_files
  end.

End Samples.

(** ** More vocabulary *)

Section MoreVocabulary.
Import PyStr Soup Py.

(** The label and value a row adds to the scraped mapping, if it does. *)
Definition row_pair (row : node) : option (string * string) :=
  match find_all "div" Discovery.any_tag row with
  | [c0; c1] => Some (get_text_strip c0, get_text_strip c1)
  | _ => None
  end.

(** The six keys a detail record can have. *)
Definition detail_key (k : string) : Prop :=
  structured_key k \/ k = "scraped_specs" \/ k = "fuel".

(** The character [safe_filename] puts for [c]. *)
Definition sanitize (c : ascii) : ascii :=
  if Ascii.eqb c " "%char || Ascii.eqb c "/"%char then "_"%char else c.

End MoreVocabulary.

Module MoreSamples.

(** A page without grid whose two links are relative. *)
Definition relative_links_page : node :=
  Samples.document
    [Elem "a" None [("href", "/bikes/honda/cb350")] [Text "Honda CB350"];
     Elem "a" None [("href", "/bikes/honda/cb350")] [Text "CB350 again"];
     Elem "a" None [("href", "/bikes/tvs/ronin")] [Text "TVS Ronin"]].

(** One script text read by two decoders: as a block wrapped in a graph,
    and as the first entry of that graph alone. *)
Definition graph_text : string := "graph".

Definition entry_block : pydict :=
  [("name", PStr "CB350"); ("sku", PStr "H-350");
   ("offers", PDict [("price", PInt 205000); ("priceCurrency", PStr "INR")])].

Definition wrapped_block : pydict :=
  [("@context", PStr "https://schema.org");
   ("@graph", PList [PDict entry_block; PStr "second"])].

Definition loads_wrapped (s : string) : option pyval :=
  if String.eqb s graph_text then Some (PDict wrapped_block) else None.

Definition loads_entry (s : string) : option pyval :=
  if String.eqb s graph_text then Some (PDict entry_block) else None.

Definition graph_page : node :=
  Samples.document
    [Samples.schema_script graph_text;
     Samples.spec_card [Samples.spec_row "Mileage" "35 kmpl"]].

(** A block whose engine is a text: its [get] raises. *)
Definition bad_engine_text : string := "bad engine".

Definition bad_engine_block : pydict :=
  [("name", PStr "CB350"); ("vehicleEngine", PStr "348 cc");
   ("offers", PDict [("price", PInt 205000)]);
   ("brand", PDict [("name", PStr "Honda")])].

Definition loads_bad_engine (s : string) : option pyval :=
  if String.eqb s bad_engine_text then Some (PDict bad_engine_block) else None.

Definition bad_engine_page : node :=
  Samples.document [Samples.schema_script bad_engine_text].

(** A record with a name from the block and no price. *)
Definition plain_details : pydict :=
  [("basic_info", PDict [("name", PStr "CB350"); ("sku", PNone)]);
   ("scraped_specs", PDict [("Power", PStr "20 bhp")])].


(** Two list entries whose titles differ by a leading [./]; only the page
    of the second can be downloaded. *)
Definition dot_x : bike :=
  {| title := "./x";
     link := "https://www.carandbike.com/bikes/brand/dot-x";
     image_link := None;
     exshowroom_price := None |}.

Definition plain_x : bike :=
  {| title := "x";
     link := "https://www.carandbike.com/bikes/brand/x";
     image_link := None;
     exshowroom_price := None |}.

Definition download_plain_x (url output_path : string) : option string :=
  if String.eqb url (link plain_x) then Some Samples.name_only_text else None.

(** The files after a first and after a second run over the two entries. *)
Definition after_run_1 : files :=
  match run Samples.loads_name_only Samples.parse_name_only download_plain_x
            [dot_x; plain_x] Samples.no_files with
  | Some (fs, _) => fs
  | None => Samples.no_files
  end.

Definition after_run_2 : files :=
  match run Samples.loads_name_only Samples.parse_name_only download_plain_x
            [dot_x; plain_x] after_run_1 with
  | Some (fs, _) => fs
  | None => Samples.no_files
  end.

(** What a first call of [main] with the limit 1 leaves on the page with
    two grids when no file is there yet. *)
Definition first_main : outcome :=
  default {| saved_list := None; out_files := Samples.no_files; saved := 0 |}
          (main Samples.loads_name_only Samples.parse_name_only
                Samples.download_cb350 (Some 1%Z) Samples.two_grids_page
                Samples.no_files).

End MoreSamples.

(** * Properties *)

(** ** Strings *)

Section StringFacts.
Import PyStr.

Lemma list_ascii_app (s1 s2 : string) :
  list_ascii_of_string (s1 +:+ s2)
  = list_ascii_of_string s1 ++ list_ascii_of_string s2.
Proof. induction s1 as [|c s1 IH]; simpl; [done | by rewrite IH]. Qed.

(** Replacing a one-character pattern by one character rewrites the text
    character by character. *)
Lemma replace_one_char (a b : ascii) (s : string) :
  list_ascii_of_string (replace (String a EmptyString) (String b EmptyString) s)
  = map (fun c => if Ascii.eqb a c then b else c) (list_ascii_of_string s).
Proof.
  unfold replace. induction s as [|c s IH]; [done |].
  cbn [replace_from startswith String.length Nat.sub list_ascii_of_string map].
  destruct (Ascii.eqb a c); cbn [andb].
  - rewrite list_ascii_app. cbn [list_ascii_of_string app].
    by rewrite IH.
  - cbn [list_ascii_of_string]. by rewrite IH.
Qed.

Lemma truthy_true (s : string) : truthy s = true <-> s <> EmptyString.
Proof. destruct s; simpl; split; congruence. Qed.

Lemma startswith_append (p s : string) : startswith p (p +:+ s) = true.
Proof.
  induction p as [|c p IH]; simpl; [by destruct s |].
  by rewrite Ascii.eqb_refl, IH.
Qed.

End StringFacts.

(** ** Dictionaries *)

Section DictFacts.
Import Py.
Context {V : Type}.
Implicit Types (d : list (string * V)) (k : string) (v : V).

Lemma dict_get_set_eq d k v : dict_get (dict_set d k v) k = Some v.
Proof.
  induction d as [|[k' v'] d IH]; simpl.
  - by rewrite String.eqb_refl.
  - destruct (String.eqb k' k) eqn:E; simpl; rewrite E; [done | exact IH].
Qed.

Lemma dict_get_set_ne d k k' v :
  k <> k' -> dict_get (dict_set d k v) k' = dict_get d k'.
Proof.
  intros Hne. induction d as [|[k0 v0] d IH]; simpl.
  - destruct (String.eqb k k') eqn:E; [|done].
    apply String.eqb_eq in E. contradiction.
  - destruct (String.eqb k0 k) eqn:E; simpl.
    + apply String.eqb_eq in E. subst k0.
      destruct (String.eqb k k') eqn:E'; [|done].
      apply String.eqb_eq in E'. contradiction.
    + by rewrite IH.
Qed.

Lemma dict_get_set d k k' v :
  dict_get (dict_set d k v) k'
  = if String.eqb k k' then Some v else dict_get d k'.
Proof.
  destruct (String.eqb k k') eqn:E.
  - apply String.eqb_eq in E. subst. apply dict_get_set_eq.
  - apply String.eqb_neq in E. by apply dict_get_set_ne.
Qed.

Lemma dict_has_false d k : dict_has d k = false <-> dict_get d k = None.
Proof. unfold dict_has. destruct (dict_get d k); split; congruence. Qed.

End DictFacts.

(** ** What a [try] block keeps *)

Section TryFacts.

Context (P : pydict -> Prop).

Lemma keeps_ret {A} (a : A) : keeps P (Try.ret a).
Proof. by intros d. Qed.

Lemma keeps_eval {A} (o : option A) : keeps P (Try.eval o).
Proof. by intros d. Qed.

Lemma keeps_bind {A B} (m : Try.t A) (k : A -> Try.t B) :
  keeps P m -> (forall a, keeps P (k a)) -> keeps P (Try.bind m k).
Proof.
  intros Hm Hk d Hd. unfold Try.bind.
  specialize (Hm d Hd). destruct (m d) as [d' [a|]]; simpl in *; [|done].
  by apply Hk.
Qed.

Lemma keeps_when (c : bool) (m : Try.t unit) :
  keeps P m -> keeps P (Try.when c m).
Proof. intros Hm. destruct c; simpl; [done | apply keeps_ret]. Qed.

Lemma keeps_assign (k : string) (v : pyval) :
  (forall d, P d -> P (Py.dict_set d k v)) -> keeps P (Try.assign k v).
Proof. intros H d Hd. by apply H. Qed.

Lemma keeps_if {A} (c : bool) (m1 m2 : Try.t A) :
  keeps P m1 -> keeps P m2 -> keeps P (if c then m1 else m2).
Proof. by destruct c. Qed.

End TryFacts.

Ltac keeps_tac :=
  repeat first
    [ apply keeps_eval | apply keeps_ret
    | apply keeps_when | apply keeps_if
    | apply keeps_bind; [| intros ?] ].

(** ** Detail extraction: what the JSON-LD part and the fallback part leave *)

Section DetailFacts.
Import PyStr Soup Py.
Variable json_loads : string -> option pyval.

Lemma unwrap_graph_keeps P data : keeps P (unwrap_graph data).
Proof. unfold unwrap_graph. keeps_tac. Qed.

Lemma basic_info_block_keeps P data :
  stable_at "basic_info" P -> keeps P (basic_info_block data).
Proof.
  intros H. unfold basic_info_block. keeps_tac.
  apply keeps_assign. intros d. apply H.
Qed.

Lemma engine_block_keeps P data :
  stable_at "engine" P -> keeps P (engine_block data).
Proof.
  intros H. unfold engine_block. keeps_tac.
  apply keeps_assign. intros d. apply H.
Qed.

Lemma price_block_keeps P data :
  stable_at "price" P -> keeps P (price_block data).
Proof.
  intros H. unfold price_block. keeps_tac.
  apply keeps_assign. intros d. apply H.
Qed.

Lemma brand_block_keeps P data :
  stable_at "brand" P -> keeps P (brand_block data).
Proof.
  intros H. unfold brand_block. keeps_tac.
  apply keeps_assign. intros d. apply H.
Qed.

Lemma json_ld_body_keeps P script :
  assign_stable P -> keeps P (json_ld_body json_loads script).
Proof.
  intros H. unfold json_ld_body.
  apply keeps_bind; [apply keeps_eval | intros data0].
  apply keeps_bind; [apply unwrap_graph_keeps | intros data].
  assert (forall k, structured_key k -> stable_at k P) as Hk.
  { intros k Hkey d v. by apply H. }
  apply keeps_bind;
    [apply basic_info_block_keeps, Hk; unfold structured_key; tauto | intros _].
  apply keeps_bind;
    [apply engine_block_keeps, Hk; unfold structured_key; tauto | intros _].
  apply keeps_bind;
    [apply price_block_keeps, Hk; unfold structured_key; tauto | intros _].
  apply brand_block_keeps, Hk; unfold structured_key; tauto.
Qed.

Lemma structured_part_keeps P soup :
  assign_stable P -> P [] -> P (structured_part json_loads soup).
Proof.
  intros H H0. unfold structured_part.
  destruct (find_product_schema soup) as [script|]; [|done].
  unfold Try.except. by apply json_ld_body_keeps.
Qed.

Lemma dicts_only_set d k x :
  dicts_only d -> dicts_only (dict_set d k (PDict x)).
Proof.
  intros Hd k' v. rewrite dict_get_set.
  destruct (String.eqb k k'); [|by apply Hd].
  intros [= <-]. by exists x.
Qed.

Lemma dicts_only_nil : dicts_only [].
Proof. by intros k v. Qed.

Lemma structured_part_dicts soup : dicts_only (structured_part json_loads soup).
Proof.
  apply structured_part_keeps; [|apply dicts_only_nil].
  intros d k v _. apply dicts_only_set.
Qed.

(** A key the [try] block never assigns is not in the record it leaves. *)
Lemma structured_part_other_key soup k :
  ~ structured_key k -> dict_get (structured_part json_loads soup) k = None.
Proof.
  intros Hk.
  apply (structured_part_keeps (fun d => dict_get d k = None)); [|done].
  intros d k' v Hk' Hd. rewrite dict_get_set_ne; [done |].
  intros ->. contradiction.
Qed.

(** The mileage loop never raises, touches the key [fuel] only, and leaves
    under it the value of the last matching label. *)
Lemma fill_mileage_spec items : forall d cur,
  dict_get d "fuel" = efficiency_entry <$> cur ->
  exists d',
    fill_mileage items d = Some d'
    /\ (forall k, k <> "fuel" -> dict_get d' k = dict_get d k)
    /\ dict_get d' "fuel"
       = efficiency_entry <$>
           (match last (filter is_mileage items) with
            | Some kv => Some (snd kv)
            | None => cur
            end).
Proof.
  induction items as [|[k v] items IH]; intros d cur Hd.
  - exists d. by rewrite Hd.
  - cbn [fill_mileage]. rewrite filter_cons.
    destruct (decide (is_mileage (k, v))) as [Hm|Hm].
    + unfold is_mileage in Hm. cbn [fst] in Hm. rewrite Hm.
      assert (exists d1, set_efficiency d v = Some d1
                /\ (forall k', k' <> "fuel" -> dict_get d1 k' = dict_get d k')
                /\ dict_get d1 "fuel" = efficiency_entry <$> Some v)
        as (d1 & Hset & Hother & Hfuel).
      { unfold set_efficiency. rewrite Hd.
        destruct cur as [c|]; cbn [fmap option_fmap option_map efficiency_entry].
        - eexists; split; [reflexivity|]. split.
          + intros k' Hk'. by apply dict_get_set_ne.
          + apply dict_get_set_eq.
        - eexists; split; [reflexivity|]. split.
          + intros k' Hk'. by apply dict_get_set_ne.
          + apply dict_get_set_eq. }
      rewrite Hset. cbn [mbind option_bind].
      destruct (IH d1 (Some v) Hfuel) as (d' & Hrun & Hk & Hf).
      exists d'. split; [done|]. split.
      * intros k' Hk'. rewrite Hk by done. by apply Hother.
      * rewrite Hf, last_cons. by destruct (last (filter is_mileage items)).
    + unfold is_mileage in Hm. cbn [fst] in Hm.
      apply not_true_is_false in Hm. rewrite Hm.
      destruct (IH d cur Hd) as (d' & Hrun & Hk & Hf).
      exists d'. by repeat split.
Qed.

(** The whole extraction: it returns, the JSON-LD keys are those of the
    JSON-LD part, and [fuel] holds the value of the last mileage label. *)
Lemma extract_detailed_bike_info_spec soup :
  exists details,
    extract_detailed_bike_info json_loads soup = Some details
    /\ (forall k, structured_key k ->
          dict_get details k = dict_get (structured_part json_loads soup) k)
    /\ dict_get details "fuel"
       = efficiency_entry <$> (snd <$> last (filter is_mileage (scrape_specs soup)))
    /\ dicts_only details.
Proof.
  unfold extract_detailed_bike_info, fallback_part.
  pose proof (structured_part_dicts soup) as Hdicts.
  assert (dict_get (structured_part json_loads soup) "fuel" = None) as Hfuel.
  { apply structured_part_other_key. unfold structured_key.
    intros [H|[H|[H|H]]]; discriminate. }
  assert (dict_get (structured_part json_loads soup) "mileage" = None) as Hmil.
  { apply structured_part_other_key. unfold structured_key.
    intros [H|[H|[H|H]]]; discriminate. }
  set (sp := structured_part json_loads soup) in *.
  destruct (scrape_specs soup) as [|kv specs] eqn:Hspecs.
  - exists sp. by repeat split.
  - set (bd := dict_set sp "scraped_specs" (specs_value (kv :: specs))).
    assert (dict_has bd "mileage" = false) as ->.
    { apply dict_has_false. unfold bd. by rewrite dict_get_set_ne. }
    cbn [negb].
    destruct (fill_mileage_spec (kv :: specs) bd None) as (d' & Hrun & Hk & Hf).
    { unfold bd. by rewrite dict_get_set_ne. }
    exists d'. split; [done|]. split; [|split].
    + intros k Hkey. rewrite Hk.
      * unfold bd. rewrite dict_get_set_ne; [done|].
        intros <-. unfold structured_key in Hkey.
        destruct Hkey as [H|[H|[H|H]]]; discriminate.
      * intros ->. unfold structured_key in Hkey.
        destruct Hkey as [H|[H|[H|H]]]; discriminate.
    + rewrite Hf. by destruct (last (filter is_mileage (kv :: specs))).
    + intros k v Hget.
      destruct (String.eqb k "fuel") eqn:E.
      * apply String.eqb_eq in E. subst k. rewrite Hf in Hget.
        destruct (last (filter is_mileage (kv :: specs))); [|done].
        injection Hget as <-. by eexists.
      * apply String.eqb_neq in E. rewrite Hk in Hget by done.
        unfold bd in Hget.
        apply (dicts_only_set sp "scraped_specs" _ Hdicts k v Hget).
Qed.

End DetailFacts.

(** ** The merge of the list entry *)

Section MergeFacts.
Import Py.

(** [{'value': p, 'currency': 'INR'}] is what the merge writes from the
    list price; the lemma gives the three effects of the merge. *)
Lemma merge_list_info_spec (b : bike) (d : pydict) :
  dicts_only d ->
  exists final,
    merge_list_info b d = Some final
    /\ dict_get final "basic_info"
       = Some (PDict (dict_set
                        (match dict_get d "basic_info" with
                         | Some (PDict x) => x
                         | _ => []
                         end) "name" (PStr (title b))))
    /\ dict_get final "price"
       = match dict_get d "price" with
         | Some entry => Some entry
         | None =>
             (fun p => PDict [("value", PStr p); ("currency", PStr "INR")])
               <$> exshowroom_price b
         end
    /\ (forall k, k <> "basic_info" -> k <> "price" ->
          dict_get final k = dict_get d k).
Proof.
  intros Hd. unfold merge_list_info.
  set (d0 := if negb (dict_has d "basic_info")
             then dict_set d "basic_info" (PDict []) else d).
  set (bi0 := match dict_get d "basic_info" with
              | Some (PDict x) => x | _ => [] end).
  assert (dict_get d0 "basic_info" = Some (PDict bi0)
          /\ forall k, k <> "basic_info" -> dict_get d0 k = dict_get d k)
    as [Hbi Hrest].
  { unfold d0, bi0, dict_has.
    destruct (dict_get d "basic_info") as [v|] eqn:E; cbn [negb].
    - destruct (Hd _ _ E) as [x ->]. by split.
    - split; [apply dict_get_set_eq|].
      intros k Hk. by apply dict_get_set_ne. }
  rewrite Hbi. cbn [mbind option_bind].
  set (d1 := dict_set d0 "basic_info" (PDict (dict_set bi0 "name" (PStr (title b))))).
  assert (dict_get d1 "price" = dict_get d "price") as Hprice.
  { unfold d1. rewrite dict_get_set_ne by done. by apply Hrest. }
  eexists. split; [reflexivity|].
  unfold dict_has. rewrite Hprice.
  destruct (exshowroom_price b) as [p|], (dict_get d "price") as [entry|] eqn:E;
    cbn [negb fmap option_fmap option_map].
  all: repeat split;
    try (unfold d1; by rewrite ?dict_get_set_eq);
    try (rewrite ?Hprice; done).
  all: try (intros k Hk1 Hk2; unfold d1;
            rewrite ?(dict_get_set_ne _ "price") by done;
            rewrite dict_get_set_ne by done; by apply Hrest).
  all: try (rewrite dict_get_set_ne by done; unfold d1; apply dict_get_set_eq).
  all: try apply dict_get_set_eq.
Qed.

End MergeFacts.

(** ** Claims on extraction and merge *)

Section ExtractionClaims.
Import PyStr Soup Py.

(** C2.  For every list entry and every detail page, extraction returns
    and the merge returns a record whose [basic_info] is a dictionary
    with [name] equal to the title of the list entry, whatever the JSON-LD
    block held, and also when it gave no [basic_info]. *)
Theorem final_name_is_list_title
    (json_loads : string -> option pyval) (b : bike) (soup : node) :
  exists details final basic_info,
    extract_detailed_bike_info json_loads soup = Some details
    /\ merge_list_info b details = Some final
    /\ dict_get final "basic_info" = Some (PDict basic_info)
    /\ dict_get basic_info "name" = Some (PStr (title b)).
Proof.
  destruct (extract_detailed_bike_info_spec json_loads soup)
    as (details & Hex & _ & _ & Hdicts).
  destruct (merge_list_info_spec b details Hdicts) as (final & Hm & Hbi & _).
  exists details, final. eexists. repeat split; [done | done | exact Hbi |].
  apply dict_get_set_eq.
Qed.

(** C3.  The price of the merged record: the entry of the extracted
    record when it has one, unchanged; otherwise, when the list entry
    carries a price, the dictionary of [value], the text the list pattern
    matched, and [currency], the text INR; otherwise no price. *)
Theorem final_price_from_list_only_when_missing
    (json_loads : string -> option pyval) (b : bike) (soup : node) :
  exists details final,
    extract_detailed_bike_info json_loads soup = Some details
    /\ merge_list_info b details = Some final
    /\ dict_get final "price"
       = match dict_get details "price" with
         | Some entry => Some entry
         | None =>
             (fun p => PDict [("value", PStr p); ("currency", PStr "INR")])
               <$> exshowroom_price b
         end.
Proof.
  destruct (extract_detailed_bike_info_spec json_loads soup)
    as (details & Hex & _ & _ & Hdicts).
  destruct (merge_list_info_spec b details Hdicts) as (final & Hm & _ & Hp & _).
  by exists details, final.
Qed.

(** C4.  When the page has no JSON-LD script, or decoding the script the
    page has raises, extraction returns a record, so nothing is raised past
    it, and the record has none of the keys [basic_info], [engine],
    [price] and [brand]. *)
Theorem unparsable_block_leaves_no_structured_field
    (json_loads : string -> option pyval) (soup : node) :
  (forall script, find_product_schema soup = Some script ->
                  load_script json_loads script = None) ->
  exists details,
    extract_detailed_bike_info json_loads soup = Some details
    /\ dict_get details "basic_info" = None
    /\ dict_get details "engine" = None
    /\ dict_get details "price" = None
    /\ dict_get details "brand" = None.
Proof.
  intros Hfail.
  destruct (extract_detailed_bike_info_spec json_loads soup)
    as (details & Hex & Hkeys & _ & _).
  assert (structured_part json_loads soup = []) as Hsp.
  { unfold structured_part.
    destruct (find_product_schema soup) as [script|] eqn:Hfind; [|done].
    unfold Try.except, json_ld_body, Try.bind, Try.eval.
    by rewrite (Hfail script eq_refl). }
  exists details. split; [done|].
  rewrite !Hkeys, Hsp by (unfold structured_key; tauto). done.
Qed.

Lemma unparsable_block_witness :
  (forall script, find_product_schema Samples.broken_block_page = Some script ->
                  load_script Samples.loads_none script = None)
  /\ exists details,
       extract_detailed_bike_info Samples.loads_none Samples.broken_block_page
       = Some details
       /\ dict_get details "basic_info" = None
       /\ dict_get details "engine" = None
       /\ dict_get details "price" = None
       /\ dict_get details "brand" = None.
Proof.
  assert (forall script,
            find_product_schema Samples.broken_block_page = Some script ->
            load_script Samples.loads_none script = None) as H.
  { intros script Hs. vm_compute in Hs. injection Hs as <-. reflexivity. }
  split; [exact H|].
  exact (unparsable_block_leaves_no_structured_field
           Samples.loads_none Samples.broken_block_page H).
Defined.

(** C5, as the code has it.  Extraction returns a record whose [fuel] is
    there exactly when some label of the scraped mapping holds "mileage"
    in lower case, and its [efficiency] is then the value of the LAST such
    label in the order of the mapping: every matching label overwrites
    what an earlier one set. *)
Theorem mileage_last_match_wins
    (json_loads : string -> option pyval) (soup : node) :
  exists details,
    extract_detailed_bike_info json_loads soup = Some details
    /\ dict_get details "fuel"
       = efficiency_entry <$>
           (snd <$> last (filter is_mileage (scrape_specs soup))).
Proof.
  destruct (extract_detailed_bike_info_spec json_loads soup)
    as (details & Hex & _ & Hfuel & _).
  by exists details.
Qed.

(** C5 as stated fails: on a table with two mileage rows the first
    matching label is "Mileage (City)" with 35 kmpl, and the record ends
    with the value of the second, 45 kmpl. *)
Lemma mileage_first_match_overwritten :
  head (filter is_mileage (scrape_specs Samples.two_mileage_page))
  = Some ("Mileage (City)", "35 kmpl")
  /\ exists details,
       extract_detailed_bike_info Samples.loads_none Samples.two_mileage_page
       = Some details
       /\ dict_get details "fuel" = Some (efficiency_entry "45 kmpl")
       /\ dict_get details "fuel" <> Some (efficiency_entry "35 kmpl").
Proof.
  split; [by vm_compute|].
  eexists. split; [by vm_compute|]. split; [by vm_compute|].
  vm_compute. discriminate.
Qed.

End ExtractionClaims.

(** ** A block that decodes to an object *)

Section DecodedBlock.
Import PyStr Soup Py.
Variable json_loads : string -> option pyval.

Lemma engine_block_dict (data d : pydict) :
  dict_get d "engine" = None ->
  let '(d', _) := engine_block (PDict data) d in
  dict_get d' "engine" = engine_of data
  /\ forall k, k <> "engine" -> dict_get d' k = dict_get d k.
Proof.
  intros Hd. unfold engine_block, engine_of, Try.bind, Try.eval, py_in, dict_has,
    py_getitem.
  destruct (dict_get data "vehicleEngine") as [ve|]; cbn [Try.when Try.ret].
  - destruct (first_engine ve); cbn [py_get]; try by split.
    unfold Try.assign. split; [apply dict_get_set_eq|].
    intros k Hk. by apply dict_get_set_ne.
  - by split.
Qed.

Lemma unwrap_graph_state (v : pyval) (d : pydict) : (unwrap_graph v d).1 = d.
Proof.
  unfold unwrap_graph, Try.bind, Try.eval, Try.ret.
  destruct (py_in "@graph" v) as [[|]|]; reflexivity.
Qed.

(** The record the [try] block leaves when the script decodes and the
    [@graph] step gives an object. *)
Lemma structured_part_of_object soup script block data :
  find_product_schema soup = Some script ->
  load_script json_loads script = Some block ->
  (unwrap_graph block []).2 = Some (PDict data) ->
  dict_get (structured_part json_loads soup) "basic_info"
    = Some (PDict (basic_info_of data))
  /\ dict_get (structured_part json_loads soup) "engine" = engine_of data.
Proof.
  intros Hfind Hload Hgraph.
  unfold structured_part. rewrite Hfind. unfold Try.except.
  set (P := fun d : pydict =>
              dict_get d "basic_info" = Some (PDict (basic_info_of data))
              /\ dict_get d "engine" = engine_of data).
  change (P (fst (json_ld_body json_loads script []))).
  unfold json_ld_body.
  unfold Try.bind at 1. unfold Try.eval at 1. rewrite Hload.
  unfold Try.bind at 1.
  assert (unwrap_graph block [] = ([], Some (PDict data))) as ->.
  { pose proof (unwrap_graph_state block []) as Hst.
    destruct (unwrap_graph block []) as [d0 r]. cbn in *. by subst. }
  unfold Try.bind at 1.
  assert (basic_info_block (PDict data) []
          = ([("basic_info", PDict (basic_info_of data))], Some tt)) as ->.
  { reflexivity. }
  set (d1 := [("basic_info", PDict (basic_info_of data))]).
  unfold Try.bind at 1.
  pose proof (engine_block_dict data d1 eq_refl) as He.
  destruct (engine_block (PDict data) d1) as [d2 r].
  destruct He as [Heng Hrest].
  assert (P d2) as Hd2.
  { split; [by rewrite Hrest | done]. }
  destruct r as [[]|]; [|done].
  assert (forall k, k <> "basic_info" -> k <> "engine" -> stable_at k P) as Hst.
  { intros k Hk1 Hk2 d v [H1 H2]. unfold P.
    by rewrite !dict_get_set_ne. }
  apply (keeps_bind P (price_block (PDict data)) (fun _ => brand_block (PDict data))).
  - by apply price_block_keeps, Hst.
  - intros _. by apply brand_block_keeps, Hst.
  - done.
Qed.

End DecodedBlock.

Section NullFields.
Import PyStr Soup Py.

(** C10, as the code has it.  When the script decodes and the [@graph]
    step, which keeps a block without [@graph] and takes the first entry of
    the graph otherwise, gives an object, the merged record has a
    [basic_info] with all six keys: [name] is the list title and each other
    key holds the field of the object, or Python's [None] (written as null)
    when the object does not have it.  The [engine], when the object gives
    an engine object, has all four keys in the same way. *)
Theorem absent_fields_are_null
    (json_loads : string -> option pyval) (soup script : node)
    (block : pyval) (data : pydict) (b : bike) :
  find_product_schema soup = Some script ->
  load_script json_loads script = Some block ->
  (unwrap_graph block []).2 = Some (PDict data) ->
  exists details final,
    extract_detailed_bike_info json_loads soup = Some details
    /\ merge_list_info b details = Some final
    /\ dict_get final "basic_info"
       = Some (PDict [("name", PStr (title b));
                      ("manufacturer", get_or_none data "manufacturer");
                      ("model", get_or_none data "model");
                      ("body_type", get_or_none data "bodyType");
                      ("description", get_or_none data "description");
                      ("sku", get_or_none data "sku")])
    /\ dict_get final "engine" = engine_of data.
Proof.
  intros Hfind Hload Hgraph.
  destruct (structured_part_of_object json_loads soup script block data
              Hfind Hload Hgraph) as [Hbi Heng].
  destruct (extract_detailed_bike_info_spec json_loads soup)
    as (details & Hex & Hkeys & _ & Hdicts).
  destruct (merge_list_info_spec b details Hdicts)
    as (final & Hm & Hfbi & _ & Hother).
  exists details, final. split; [done|]. split; [done|]. split.
  - rewrite Hfbi, Hkeys, Hbi by (unfold structured_key; tauto). reflexivity.
  - rewrite Hother, Hkeys, Heng by (done || unfold structured_key; tauto). done.
Qed.

(** The theorem on a block wrapped in [@graph]: the first entry of the
    graph has a name, a [sku] and offers, and nothing else. *)
Lemma absent_fields_are_null_witness :
  exists details final,
    extract_detailed_bike_info MoreSamples.loads_wrapped MoreSamples.graph_page
    = Some details
    /\ merge_list_info Samples.cb350 details = Some final
    /\ dict_get final "basic_info"
       = Some (PDict [("name", PStr "Honda CB350");
                      ("manufacturer", PNone); ("model", PNone);
                      ("body_type", PNone); ("description", PNone);
                      ("sku", PStr "H-350")])
    /\ dict_get final "engine" = None.
Proof.
  exact (absent_fields_are_null MoreSamples.loads_wrapped MoreSamples.graph_page
           (Samples.schema_script MoreSamples.graph_text)
           (PDict MoreSamples.wrapped_block) MoreSamples.entry_block
           Samples.cb350 eq_refl eq_refl eq_refl).
Defined.

(** C10 as stated fails: the block of the page holds a name only, so
    [sku], [description] and the rest are absent from it, and the merged
    record still has the key [sku], holding Python's [None]. *)
Lemma absent_sku_kept_as_null :
  load_script Samples.loads_name_only
              (Samples.schema_script Samples.name_only_text)
  = Some (PDict Samples.name_only_block)
  /\ dict_get Samples.name_only_block "sku" = None
  /\ exists details final basic_info,
       extract_detailed_bike_info Samples.loads_name_only Samples.name_only_page
       = Some details
       /\ merge_list_info Samples.cb350 details = Some final
       /\ dict_get final "basic_info" = Some (PDict basic_info)
       /\ dict_get basic_info "sku" = Some PNone
       /\ dict_has basic_info "description" = true.
Proof.
  split; [by vm_compute|]. split; [by vm_compute|].
  do 3 eexists. split; [by vm_compute|]. split; [by vm_compute|].
  split; [by vm_compute|]. split; by vm_compute.
Qed.

End NullFields.

(** ** Facts on list discovery *)

Section DiscoveryFacts.
Import PyStr Soup Discovery.

Lemma absolutize_nonempty (href : string) : absolutize href <> EmptyString.
Proof.
  unfold absolutize. destruct (startswith "http" href) eqn:E.
  - intros ->. discriminate.
  - discriminate.
Qed.

(** Every tag the link scan visits has an [href] that holds the marker. *)
Lemma bike_links_href (soup a : node) :
  a ∈ bike_links soup ->
  exists href, get_attr "href" a = Some href /\ contains "/bikes/" href = true.
Proof.
  unfold bike_links, find_all. rewrite list_elem_of_filter.
  intros [Hp _]. apply andb_true_iff in Hp as [_ Hp].
  unfold attr_matches_fn, is_bike_href in Hp.
  destruct (get_attr "href" a) as [href|]; [|discriminate].
  apply andb_true_iff in Hp as [_ Hp]. by exists href.
Qed.

(** The loop of strategy B from a state that records the links accepted so
    far: it returns, appends one entry per newly accepted tag, in the order
    of the scan, and keeps the accepted targets distinct. *)
Lemma link_loop_spec (links : list node) :
  forall (acc : list (node * string)) (bikes : list bike) (seen : gset string),
    Forall (fun a => exists href, get_attr "href" a = Some href
                                  /\ contains "/bikes/" href = true) links ->
    NoDup acc.*2 ->
    (forall h, h ∈ seen <-> h ∈ acc.*2) ->
    exists (acc' : list (node * string)) (seen' : gset string),
      link_loop links (bikes, seen)
      = Some (bikes ++ map (fun ah => link_bike ah.1 ah.2) acc', seen')
      /\ acc'.*1 `sublist_of` links
      /\ Forall (fun ah => get_attr "href" ah.1 = Some ah.2
                           /\ contains "/bikes/" ah.2 = true
                           /\ 2 < count "/"%char ah.2
                           /\ get_text_strip ah.1 <> EmptyString) acc'
      /\ NoDup (acc ++ acc').*2.
Proof.
  induction links as [|a links IH]; intros acc bikes seen Hlinks Hnd Hseen.
  - exists [], seen. rewrite !app_nil_r. by repeat split.
  - apply Forall_cons in Hlinks as [(href & Hhref & Hmark) Hlinks].
    cbn [link_loop]. unfold link_step. rewrite Hhref.
    assert (forall st,
              (exists acc' seen',
                 link_loop links st
                 = Some (bikes ++ map (fun ah => link_bike ah.1 ah.2) acc', seen')
                 /\ acc'.*1 `sublist_of` links
                 /\ Forall (fun ah => get_attr "href" ah.1 = Some ah.2
                                      /\ contains "/bikes/" ah.2 = true
                                      /\ 2 < count "/"%char ah.2
                                      /\ get_text_strip ah.1 <> EmptyString) acc'
                 /\ NoDup (acc ++ acc').*2) ->
              st = (bikes, seen) ->
              exists acc' seen',
                (Some st ≫= link_loop links)
                = Some (bikes ++ map (fun ah => link_bike ah.1 ah.2) acc', seen')
                /\ acc'.*1 `sublist_of` a :: links
                /\ Forall (fun ah => get_attr "href" ah.1 = Some ah.2
                                     /\ contains "/bikes/" ah.2 = true
                                     /\ 2 < count "/"%char ah.2
                                     /\ get_text_strip ah.1 <> EmptyString) acc'
                /\ NoDup (acc ++ acc').*2) as Hskip.
    { intros st (acc' & seen' & Hrun & Hsub & Hok & Hnd') ->.
      exists acc', seen'. repeat split; try done. by apply sublist_cons. }
    destruct (bool_decide (href ∈ seen)) eqn:Hin.
    { apply Hskip; [|done]. by apply IH. }
    apply bool_decide_eq_false in Hin.
    destruct (Nat.ltb 2 (count "/"%char href)) eqn:Hdepth;
      [|apply Hskip; [by apply IH | done]].
    destruct (truthy (get_text_strip a)) eqn:Htitle;
      [|apply Hskip; [by apply IH | done]].
    apply Nat.ltb_lt in Hdepth. apply truthy_true in Htitle.
    destruct (IH (acc ++ [(a, href)]) (bikes ++ [link_bike a href])
                 (seen ∪ {[href]}) Hlinks)
      as (acc' & seen' & Hrun & Hsub & Hok & Hnd').
    + rewrite fmap_app. apply NoDup_app. split; [done|]. split.
      * intros h Hh. cbn. rewrite list_elem_of_singleton. intros ->.
        by apply Hin, Hseen.
      * cbn. apply NoDup_singleton.
    + intros h. rewrite fmap_app, elem_of_app, elem_of_union, Hseen. cbn.
      by rewrite elem_of_singleton, list_elem_of_singleton.
    + exists ((a, href) :: acc'), seen'. cbn [mbind option_bind].
      rewrite Hrun. split; [|split; [|split]].
      * by rewrite <- app_assoc.
      * cbn. by apply sublist_skip.
      * by apply Forall_cons.
      * by rewrite <- app_assoc in Hnd'.
Qed.



End DiscoveryFacts.

(** C1, at a failing page.  Two grids list the same bike; the grid strategy
    returns one entry per grid item and the two entries have the same
    link. *)
Theorem grid_strategy_repeats_link :
  exists b1 b2,
    Discovery.fetch_bike_links_playwright Samples.two_grids_page = Some [b1; b2]
    /\ link b1 = link b2
    /\ ~ NoDup (link <$> [b1; b2]).
Proof.
  do 2 eexists. split; [by vm_compute|]. split; [done|].
  cbn. rewrite NoDup_cons. intros [Hnotin _]. apply Hnotin. by left.
Qed.

(** The link scan keys its seen set on the target as written, so a relative
    and an absolute target of one page give two entries with one link. *)
Example link_scan_repeats_link :
  link <$> default [] (Discovery.fetch_bike_links_playwright
                          Samples.relative_absolute_page)
  = ["https://www.carandbike.com/bikes/honda/cb350";
     "https://www.carandbike.com/bikes/honda/cb350"].
Proof. by vm_compute. Qed.

(** C6, at a failing page.  The link of the only grid item wraps an image
    and has no text; the grid strategy returns an entry for it whose title
    is empty. *)
Theorem grid_strategy_keeps_empty_title :
  exists b,
    Discovery.fetch_bike_links_playwright Samples.image_item_page = Some [b]
    /\ title b = EmptyString
    /\ link b = "https://www.carandbike.com/bikes/honda/cb350".
Proof. eexists. split; [by vm_compute|]. by split. Qed.

(** Every entry the extractor of a grid item returns has a link. *)
Lemma extract_list_item_link (li_item : node) (b : bike) :
  Discovery.extract_list_item li_item = Some b -> link b <> EmptyString.
Proof.
  unfold Discovery.extract_list_item.
  destruct (match Soup.find "a" _ li_item with Some a => Some a | None => _ end);
    [|discriminate].
  intros [= <-]. apply absolutize_nonempty.
Qed.

(** C8.  The record file name is the title with every space and every
    slash turned into an underscore, every other character kept, followed by
    the extension. *)
Theorem safe_filename_replaces_space_and_slash (title : string) :
  list_ascii_of_string (safe_filename title)
  = map (fun c => if Ascii.eqb c " "%char || Ascii.eqb c "/"%char
                  then "_"%char else c)
        (list_ascii_of_string title)
    ++ list_ascii_of_string ".json".
Proof.
  unfold safe_filename.
  rewrite list_ascii_app, !replace_one_char, map_map.
  f_equal. apply map_ext. intros c.
  rewrite (Ascii.eqb_sym c " "%char), (Ascii.eqb_sym c "/"%char).
  destruct (Ascii.eqb " "%char c) eqn:E1; cbn [orb]; [done|].
  by destruct (Ascii.eqb "/"%char c).
Qed.

(** ** The processing loop *)

Section PathFacts.
Import PyStr.

Lemma list_ascii_inj (s1 s2 : string) :
  list_ascii_of_string s1 = list_ascii_of_string s2 -> s1 = s2.
Proof.
  intros H. rewrite <- (string_of_list_ascii_of_string s1),
    <- (string_of_list_ascii_of_string s2). by rewrite H.
Qed.

Lemma append_inv_head (p s1 s2 : string) : p +:+ s1 = p +:+ s2 -> s1 = s2.
Proof. induction p as [|c p IH]; cbn; [done|]. intros [= H]. by apply IH. Qed.

Lemma append_inv_tail (s1 s2 e : string) : s1 +:+ e = s2 +:+ e -> s1 = s2.
Proof.
  intros H. apply list_ascii_inj.
  apply (f_equal list_ascii_of_string) in H. rewrite !list_ascii_app in H.
  by apply app_inv_tail in H.
Qed.

(** A name without slash is one path component. *)
Lemma split_slash_one (s : string) :
  count "/"%char s = 0 -> PyPath.split_slash s = [s].
Proof.
  induction s as [|c s IH]; [done|].
  cbn [count PyPath.split_slash]. rewrite (Ascii.eqb_sym c "/"%char).
  destruct (Ascii.eqb "/"%char c); [discriminate|].
  intros H. by rewrite (IH H).
Qed.

Lemma count_slash_append (a b : string) :
  count "/"%char (a +:+ b) = count "/"%char a + count "/"%char b.
Proof. induction a as [|x a IH]; simpl; [done|]. rewrite IH. lia. Qed.

Lemma count_slash_replace_space (t : string) :
  count "/"%char (replace " " "_" t) = count "/"%char t.
Proof.
  unfold replace. induction t as [|c t IH]; [done|].
  cbn [replace_from startswith String.length Nat.sub].
  destruct (Ascii.eqb " "%char c) eqn:E; cbn [andb].
  - apply Ascii.eqb_eq in E. subst c.
    rewrite count_slash_append, IH. reflexivity.
  - cbn [count]. by rewrite IH.
Qed.

Lemma length_append (a b : string) :
  String.length (a +:+ b) = String.length a + String.length b.
Proof. induction a as [|x a IH]; simpl; [done|]. by rewrite IH. Qed.

(** The cached page of a title without slash lies directly in the page
    directory, under the page name. *)
Lemma page_path_no_slash (b : bike) :
  count "/"%char (title b) = 0 ->
  page_path b = ".temp/bikes_html/" +:+ html_name (title b).
Proof.
  intros H. unfold page_path, path_join, PyPath.join_text.
  assert (count "/"%char (html_name (title b)) = 0) as Hname.
  { unfold html_name. by rewrite count_slash_append, count_slash_replace_space, H. }
  assert (PyPath.root (html_name (title b)) = EmptyString) as ->.
  { unfold PyPath.root. destruct (html_name (title b)) as [|c n]; [done|].
    cbn [startswith]. cbn [count] in Hname.
    rewrite (Ascii.eqb_sym "/"%char c) in Hname |- *.
    by destruct (Ascii.eqb c "/"%char). }
  unfold PyPath.parts at 2. rewrite (split_slash_one _ Hname).
  rewrite filter_cons, decide_True; [reflexivity|].
  unfold html_name. split.
  - intros E. apply (f_equal String.length) in E.
    rewrite length_append in E. cbn in E. lia.
  - intros E. apply (f_equal String.length) in E.
    rewrite length_append in E. cbn in E. lia.
Qed.

(** A list whose titles hold no slash has no page aliases. *)
Lemma slash_free_alias_free (bikes_list : list bike) :
  Forall (fun b => count "/"%char (title b) = 0) bikes_list ->
  alias_free bikes_list.
Proof.
  intros Hall b b' Hb Hb' Hpage. rewrite Forall_forall in Hall.
  rewrite (page_path_no_slash b (Hall b Hb)),
    (page_path_no_slash b' (Hall b' Hb')) in Hpage.
  apply append_inv_head in Hpage. unfold html_name in Hpage.
  apply append_inv_tail in Hpage.
  unfold record_path, safe_filename. by rewrite Hpage.
Qed.

End PathFacts.

Section LoopFacts.
Variable json_loads : string -> option pyval.
Variable parse_html : string -> node.
Variable download : string -> string -> option string.

Let step := process_bike json_loads parse_html download.
Let loop := process_bikes json_loads parse_html download.

(** One turn either leaves everything as it is, on an entry that is done or
    stuck, or writes the record file of the entry, with at most its own page
    added to the cache. *)
Lemma process_bike_cases (b : bike) (fs fs' : files) (n n' : nat) :
  step b (fs, n) = Some (fs', n') ->
  (fs' = fs /\ n' = n /\ done_or_stuck download b fs)
  \/ (exists details,
        records fs' = <[record_path b := details]> (records fs)
        /\ n' = S n
        /\ (pages fs' = pages fs
            \/ exists text, pages fs' = <[page_path b := text]> (pages fs))).
Proof.
  unfold step, process_bike. fold (record_path b). fold (page_path b).
  case_bool_decide as Hrec.
  { intros [= <- <-]. left. repeat split. by left. }
  case_bool_decide as Hpage.
  - destruct (pages fs !! page_path b) as [text|]; cbn [mbind option_bind];
      [|discriminate].
    destruct (extract_detailed_bike_info json_loads (parse_html text)) as [d|];
      cbn [mbind option_bind]; [|discriminate].
    destruct (merge_list_info b d) as [d'|]; cbn [mbind option_bind];
      [|discriminate].
    intros [= <- <-]. right. exists d'. cbn. repeat split. by left.
  - unfold download_page.
    destruct (download (link b) (page_path b)) as [text|] eqn:Hdl.
    + cbn [pages records]. rewrite lookup_insert_eq. cbn [mbind option_bind].
      destruct (extract_detailed_bike_info json_loads (parse_html text)) as [d|];
        cbn [mbind option_bind]; [|discriminate].
      destruct (merge_list_info b d) as [d'|]; cbn [mbind option_bind];
        [|discriminate].
      intros [= <- <-]. right. exists d'. cbn. repeat split. right. by exists text.
    + intros [= <- <-]. left. repeat split. right. split; [|done].
      destruct (pages fs !! page_path b) eqn:E; [|done].
      exfalso. apply Hpage. by eexists.
Qed.

(** The turn of an entry that is done or stuck changes nothing. *)
Lemma process_bike_idle (b : bike) (fs : files) (n : nat) :
  done_or_stuck download b fs -> step b (fs, n) = Some (fs, n).
Proof.
  unfold step, process_bike. fold (record_path b). fold (page_path b).
  intros [Hdone|[Hpage Hdl]].
  - by rewrite bool_decide_eq_true_2.
  - case_bool_decide; [done|].
    rewrite bool_decide_eq_false_2.
    + unfold download_page. by rewrite Hdl.
    + rewrite Hpage. by intros [? ?].
Qed.

(** After its turn an entry is done or stuck. *)
Lemma process_bike_settles (b : bike) (st st' : files * nat) :
  step b st = Some st' -> done_or_stuck download b st'.1.
Proof.
  destruct st as [fs n], st' as [fs' n']. intros H.
  apply process_bike_cases in H as [(-> & _ & H)|(d & Hrec & _)]; [done|].
  left. cbn. rewrite Hrec, lookup_insert_eq. by eexists.
Qed.

(** An entry that is done or stuck stays so through the turn of another,
    when the two do not share a cached page without sharing the record
    file. *)
Lemma process_bike_keeps_settled (b b' : bike) (st st' : files * nat) :
  (page_path b = page_path b' -> record_path b = record_path b') ->
  step b st = Some st' ->
  done_or_stuck download b' st.1 -> done_or_stuck download b' st'.1.
Proof.
  destruct st as [fs n], st' as [fs' n']. intros Halias H Hb'.
  apply process_bike_cases in H as [(-> & _ & _)|(d & Hrec & _ & Hpages)]; [done|].
  cbn in *. destruct Hb' as [Hdone|[Hpage Hdl]].
  - left. rewrite Hrec. rewrite lookup_insert.
    case_decide; [by eexists | done].
  - destruct Hpages as [Hp|[text Hp]].
    + right. by rewrite Hp.
    + destruct (decide (page_path b = page_path b')) as [Heq|Hne].
      * left. rewrite Hrec, (Halias Heq), lookup_insert_eq.
        by eexists.
      * right. by rewrite Hp, lookup_insert_ne.
Qed.

Lemma process_bikes_keeps_settled (bikes_list : list bike) (b' : bike) :
  (forall b, b ∈ bikes_list ->
     page_path b = page_path b' -> record_path b = record_path b') ->
  forall st st',
    loop bikes_list st = Some st' ->
    done_or_stuck download b' st.1 -> done_or_stuck download b' st'.1.
Proof.
  induction bikes_list as [|b rest IH]; intros Halias st st' H Hb'.
  - by injection H as <-.
  - cbn in H. destruct (process_bike _ _ _ b st) as [st1|] eqn:Hstep;
      [|discriminate].
    cbn in H. apply (IH (fun x Hx => Halias x (list_elem_of_further _ _ _ Hx)) st1 st' H).
    apply (process_bike_keeps_settled b b' st st1); [|done|done].
    apply Halias. left.
Qed.

(** A completed run over a list without page aliases leaves every entry of
    the list done or stuck. *)
Lemma process_bikes_settles (bikes_list : list bike) :
  alias_free bikes_list ->
  forall st st',
    loop bikes_list st = Some st' ->
    Forall (fun b => done_or_stuck download b st'.1) bikes_list.
Proof.
  induction bikes_list as [|b rest IH]; intros Halias st st' H; [constructor|].
  cbn in H. destruct (process_bike _ _ _ b st) as [st1|] eqn:Hstep;
    [|discriminate].
  cbn in H. constructor.
  - apply (process_bikes_keeps_settled rest b) with (st := st1); [|done|].
    + intros x Hx. apply Halias; [by right | left].
    + by apply (process_bike_settles b st st1).
  - apply (IH (fun x y Hx Hy => Halias x y (list_elem_of_further _ _ _ Hx)
                                   (list_elem_of_further _ _ _ Hy)) st1 st' H).
Qed.

(** Over entries that are all done or stuck the loop changes nothing. *)
Lemma process_bikes_idle (bikes_list : list bike) (fs : files) (n : nat) :
  Forall (fun b => done_or_stuck download b fs) bikes_list ->
  loop bikes_list (fs, n) = Some (fs, n).
Proof.
  induction 1 as [|b rest Hb _ IH]; [done|].
  pose proof (process_bike_idle b fs n Hb) as Hs.
  unfold loop, step in *. cbn [process_bikes]. rewrite Hs. exact IH.
Qed.

End LoopFacts.

(** A second run over a list without page aliases writes nothing: when the
    first run completes and leaves the files [fs1], the second returns the
    same files and counts no saved bike. *)
Lemma second_run_idle_without_alias
    (json_loads : string -> option pyval) (parse_html : string -> node)
    (download : string -> string -> option string)
    (bikes_list : list bike) (fs0 fs1 : files) (success_count : nat) :
  alias_free bikes_list ->
  run json_loads parse_html download bikes_list fs0 = Some (fs1, success_count) ->
  run json_loads parse_html download bikes_list fs1 = Some (fs1, 0).
Proof.
  unfold run. intros Halias Hfirst.
  apply process_bikes_idle.
  exact (process_bikes_settles json_loads parse_html download
           bikes_list Halias (fs0, 0) (fs1, success_count) Hfirst).
Qed.

(** C9, at a failing list.  The titles "./x" and "x" have one cached page,
    since the page name keeps the slash and the path drops the [.] component,
    and two record files.  The download of the first entry fails, so the
    first run saves the record of the second entry only; the second run,
    with the same download results, finds the page of the second entry under
    the path of the first and writes the record file of the first. *)
Theorem second_run_writes_on_shared_page :
  page_path MoreSamples.dot_x = page_path MoreSamples.plain_x
  /\ record_path MoreSamples.dot_x <> record_path MoreSamples.plain_x
  /\ run Samples.loads_name_only Samples.parse_name_only MoreSamples.download_plain_x
         [MoreSamples.dot_x; MoreSamples.plain_x] Samples.no_files
     = Some (MoreSamples.after_run_1, 1)
  /\ run Samples.loads_name_only Samples.parse_name_only MoreSamples.download_plain_x
         [MoreSamples.dot_x; MoreSamples.plain_x] MoreSamples.after_run_1
     = Some (MoreSamples.after_run_2, 1)
  /\ dom (records MoreSamples.after_run_1)
     = {["data/new_bike_details/x.json"]}
  /\ dom (records MoreSamples.after_run_2)
     = {["data/new_bike_details/x.json"; "data/new_bike_details/._x.json"]}.
Proof.
  split; [by vm_compute|]. split; [by vm_compute|].
  split; [vm_compute; reflexivity|]. split; [vm_compute; reflexivity|].
  split; by vm_compute.
Qed.

(** The first run of the sample saved the record of the first entry. *)
Example after_first_run_records :
  dom (records Samples.after_first_run)
  = {["data/new_bike_details/Honda_CB350.json"]}.
Proof. by vm_compute. Qed.

(** ** Worked examples *)

Example price_search_ex :
  PriceRe.search "Honda CB350 ₹ 2,05,000 onwards" = Some "2,05,000".
Proof. reflexivity. Qed.

Example price_search_decimal :
  PriceRe.search "from ₹1,999.50 only" = Some "1,999.50".
Proof. reflexivity. Qed.

Example price_search_none : PriceRe.search "price on request" = None.
Proof. reflexivity. Qed.

Example replace_ex : PyStr.replace "ab" "x" "aababab" = "axxx".
Proof. reflexivity. Qed.

Example strip_ex : PyStr.strip "  Honda CB350  " = "Honda CB350".
Proof. reflexivity. Qed.

Example safe_filename_ex : safe_filename "Honda CB 350/RS" = "Honda_CB_350_RS.json".
Proof. reflexivity. Qed.

(** A grid item with a price in its text gives title, absolute link and the
    matched digits. *)
Example extract_list_item_ex :
  Discovery.extract_list_item
    (Elem "li" None []
          [Elem "a" None [("href", "/bikes/honda/cb350")] [Text "Honda CB350"];
           Elem "span" None [] [Text "₹ 2,05,000"]])
  = Some Samples.cb350.
Proof. reflexivity. Qed.

(** * Further properties of the code *)

(** ** Discovery *)

Section MoreDiscovery.
Import PyStr Soup Discovery.

Lemma absolutize_http (href : string) : startswith "http" (absolutize href) = true.
Proof.
  unfold absolutize. destruct (startswith "http" href) eqn:E; [exact E | reflexivity].
Qed.

Lemma strategy_a_links (soup : node) (b : bike) :
  b ∈ strategy_a soup -> exists href, link b = absolutize href.
Proof.
  unfold strategy_a. rewrite list_elem_of_omap. intros (li & _ & Hli).
  unfold extract_list_item in Hli.
  destruct (match find "a" _ li with Some a => Some a | None => _ end) as [a|];
    [|discriminate].
  injection Hli as <-. by eexists.
Qed.

(** X1.  Discovery never raises, and every link it returns, from the grid
    or from the link scan, starts with "http": a relative target has been
    put behind the site address. *)
Theorem discovery_returns_absolute_links (soup : node) :
  exists bikes,
    fetch_bike_links_playwright soup = Some bikes
    /\ Forall (fun b => startswith "http" (link b) = true) bikes.
Proof.
  unfold fetch_bike_links_playwright.
  destruct (strategy_a soup) as [|b0 rest] eqn:Ha.
  - destruct (link_loop_spec (bike_links soup) [] [] ∅)
      as (acc & seen & Hrun & _ & _ & _).
    + apply Forall_forall. intros a Hin. by apply (bike_links_href soup).
    + constructor.
    + intros h. cbn. set_solver.
    + unfold strategy_b. rewrite Hrun. cbn. eexists. split; [reflexivity|].
      apply Forall_forall. intros b Hb.
      apply list_elem_of_fmap in Hb as ([a h] & -> & _). apply absolutize_http.
  - eexists. split; [reflexivity|]. rewrite <- Ha.
    apply Forall_forall. intros b Hb.
    destruct (strategy_a_links soup b Hb) as [href ->]. apply absolutize_http.
Qed.

(** X2.  Making a target absolute twice is the same as once. *)
Theorem absolutize_idempotent (href : string) :
  absolutize (absolutize href) = absolutize href.
Proof.
  unfold absolutize at 1. by rewrite absolutize_http.
Qed.

Lemma find_all_weaker (name : string) (p : node -> bool) (n : node) :
  find_all name any_tag n = [] -> find_all name p n = [].
Proof.
  unfold find_all. intros Hnone.
  destruct (filter (fun d => is_tag name d && p d = true) (descendants n))
    as [|x l] eqn:E; [done|].
  assert (x ∈ filter (fun d => is_tag name d && any_tag d = true) (descendants n))
    as Hx.
  { assert (x ∈ x :: l) as Hin by left. rewrite <- E in Hin.
    apply list_elem_of_filter in Hin as [Hp Hd].
    apply list_elem_of_filter. split; [|done].
    apply andb_true_iff in Hp as [Ht _]. by rewrite Ht. }
  rewrite Hnone in Hx. by apply elem_of_nil in Hx.
Qed.

(** X3.  A grid item gives no entry exactly when there is no link tag
    anywhere below it; with a link tag it always gives one, whatever the
    text and the target of the tag. *)
Theorem extract_list_item_none_iff_no_anchor (li_item : node) :
  extract_list_item li_item = None <-> find_all "a" any_tag li_item = [].
Proof.
  unfold extract_list_item, find. split.
  - intros H.
    destruct (head (find_all "a" (class_matches_fn has_js_tracker) li_item));
      [discriminate|].
    destruct (find_all "a" any_tag li_item); [done | discriminate].
  - intros H. by rewrite (find_all_weaker _ _ _ H), H.
Qed.

(** X4.  When no target of the link scan starts with "http", the links
    strategy B returns are pairwise distinct. *)
Theorem strategy_b_relative_links_distinct (soup : node) :
  Forall (fun a => forall h, get_attr "href" a = Some h ->
                             startswith "http" h = false) (bike_links soup) ->
  exists bikes, strategy_b soup = Some bikes /\ NoDup (link <$> bikes).
Proof.
  intros Hrel.
  destruct (link_loop_spec (bike_links soup) [] [] ∅)
    as (acc & seen & Hrun & Hsub & Hok & Hnd).
  - apply Forall_forall. intros a Hin. by apply (bike_links_href soup).
  - constructor.
  - intros h. cbn. set_solver.
  - unfold strategy_b. rewrite Hrun. cbn. eexists. split; [reflexivity|].
    cbn in Hnd.
    assert (link <$> map (fun ah : node * string => link_bike ah.1 ah.2) acc
            = absolutize <$> acc.*2) as ->.
    { rewrite <- !list_fmap_compose. by apply list_fmap_ext. }
    apply NoDup_fmap_2_strong; [|done].
    assert (forall h, h ∈ acc.*2 -> startswith "http" h = false) as Hh.
    { intros h Hin. apply list_elem_of_fmap in Hin as ([a h'] & -> & Hin).
      rewrite Forall_forall in Hok. rewrite Forall_forall in Hrel.
      destruct (Hok _ Hin) as (Hget & _). cbn in *.
      apply (Hrel a); [|done].
      apply (elem_of_sublist (acc.*1)); [|done].
      apply list_elem_of_fmap. by exists (a, h'). }
    intros x y Hx Hy. unfold absolutize. rewrite (Hh x Hx), (Hh y Hy).
    apply append_inv_head.
Qed.

Lemma strategy_b_relative_links_distinct_witness :
  exists bikes,
    strategy_b MoreSamples.relative_links_page = Some bikes
    /\ NoDup (link <$> bikes).
Proof.
  apply strategy_b_relative_links_distinct.
  repeat constructor; intros h [= <-]; reflexivity.
Defined.

End MoreDiscovery.

(** ** The price pattern *)

Section MorePrice.
Import PyStr PriceRe.




End MorePrice.

(** ** File names *)

Section MoreNames.
Import PyStr.

Lemma safe_filename_chars (title : string) :
  list_ascii_of_string (safe_filename title)
  = map sanitize (list_ascii_of_string title) ++ list_ascii_of_string ".json".
Proof.
  unfold safe_filename.
  rewrite list_ascii_app, !replace_one_char, map_map.
  f_equal. apply map_ext. intros c. unfold sanitize.
  rewrite (Ascii.eqb_sym c " "%char), (Ascii.eqb_sym c "/"%char).
  destruct (Ascii.eqb " "%char c) eqn:E1; cbn [orb]; [done|].
  by destruct (Ascii.eqb "/"%char c).
Qed.

Lemma sanitize_safe (c : ascii) :
  sanitize c <> " "%char /\ sanitize c <> "/"%char.
Proof.
  unfold sanitize.
  destruct (Ascii.eqb c " "%char) eqn:E1; cbn [orb]; [by split|].
  destruct (Ascii.eqb c "/"%char) eqn:E2; [by split|].
  apply Ascii.eqb_neq in E1, E2. by split.
Qed.

(** X6.  The record file name of any title holds no slash and no space,
    so the record file lies directly in the output directory. *)
Theorem safe_filename_has_no_slash_or_space (title : string) (c : ascii) :
  c ∈ list_ascii_of_string (safe_filename title) ->
  c <> " "%char /\ c <> "/"%char.
Proof.
  rewrite safe_filename_chars, elem_of_app. intros [Hc|Hc].
  - change map with (@fmap list _) in Hc.
    apply list_elem_of_fmap in Hc as (x & -> & _). apply sanitize_safe.
  - cbn in Hc.
    repeat (apply elem_of_cons in Hc as [-> | Hc]; [by split|]).
    by apply elem_of_nil in Hc.
Qed.

Lemma safe_filename_has_no_slash_or_space_witness :
  "_"%char <> " "%char /\ "_"%char <> "/"%char.
Proof.
  apply (safe_filename_has_no_slash_or_space "Honda CB 350/RS").
  apply (list_elem_of_lookup_2 _ 5). reflexivity.
Defined.

(** X7.  Two titles have the same record file name exactly when they are
    equal after every space and slash is read as an underscore: the loop
    takes the second of two such entries as already saved. *)
Theorem safe_filename_collision (t1 t2 : string) :
  safe_filename t1 = safe_filename t2
  <-> map sanitize (list_ascii_of_string t1) = map sanitize (list_ascii_of_string t2).
Proof.
  split.
  - intros H. apply (f_equal list_ascii_of_string) in H.
    rewrite !safe_filename_chars in H. by apply app_inv_tail in H.
  - intros H. apply list_ascii_inj. by rewrite !safe_filename_chars, H.
Qed.

End MoreNames.

(** ** Detail extraction *)

Section MoreDetail.
Import PyStr Soup Py.
Variable json_loads : string -> option pyval.

(** Extraction returns; outside [scraped_specs] and [fuel] the record is
    the one the [try] block left, and [scraped_specs] is the scraped mapping
    when that is not empty. *)
Lemma extract_detailed_bike_info_frame (soup : node) :
  exists details,
    extract_detailed_bike_info json_loads soup = Some details
    /\ (forall k, k <> "scraped_specs" -> k <> "fuel" ->
          dict_get details k = dict_get (structured_part json_loads soup) k)
    /\ dict_get details "scraped_specs"
       = match scrape_specs soup with
         | [] => None
         | specs => Some (specs_value specs)
         end.
Proof.
  unfold extract_detailed_bike_info, fallback_part.
  assert (forall k, k = "fuel" \/ k = "mileage" \/ k = "scraped_specs" ->
            dict_get (structured_part json_loads soup) k = None) as Hnone.
  { intros k Hk. apply structured_part_other_key. unfold structured_key.
    intros [H|[H|[H|H]]]; destruct Hk as [->|[->| ->]]; discriminate. }
  set (sp := structured_part json_loads soup) in *.
  destruct (scrape_specs soup) as [|kv specs].
  - exists sp. split; [done|]. split; [done|]. apply Hnone. tauto.
  - set (bd := dict_set sp "scraped_specs" (specs_value (kv :: specs))).
    assert (dict_has bd "mileage" = false) as ->.
    { apply dict_has_false. unfold bd. rewrite dict_get_set_ne by done.
      apply Hnone. tauto. }
    cbn [negb].
    destruct (fill_mileage_spec (kv :: specs) bd None) as (d' & Hrun & Hk & _).
    { unfold bd. rewrite dict_get_set_ne by done. cbn. apply Hnone. tauto. }
    exists d'. split; [done|]. split.
    + intros k Hk1 Hk2. rewrite Hk by done. unfold bd.
      by rewrite dict_get_set_ne.
    + rewrite Hk by done. unfold bd. apply dict_get_set_eq.
Qed.

(** X8.  Extraction never raises and the record it returns has no key
    besides [basic_info], [engine], [price], [brand], [scraped_specs] and
    [fuel], whatever the block and the page hold. *)
Theorem detail_record_keys (soup : node) :
  exists details,
    extract_detailed_bike_info json_loads soup = Some details
    /\ forall k, is_Some (dict_get details k) -> detail_key k.
Proof.
  destruct (extract_detailed_bike_info_frame soup) as (details & Hex & Hframe & _).
  exists details. split; [done|]. intros k Hk. unfold detail_key.
  destruct (decide (k = "scraped_specs")) as [->|H1]; [tauto|].
  destruct (decide (k = "fuel")) as [->|H2]; [tauto|].
  left. rewrite Hframe in Hk by done.
  destruct (decide (structured_key k)) as [|Hno]; [done|].
  rewrite (structured_part_other_key json_loads soup k Hno) in Hk.
  by destruct Hk.
Qed.

(** X9.  The scraped mapping is attached as it is: [scraped_specs] is
    missing when no row was scraped and is otherwise the whole mapping, in
    its order, also when the block gave the same facts. *)
Theorem scraped_specs_attached_verbatim (soup : node) :
  exists details,
    extract_detailed_bike_info json_loads soup = Some details
    /\ dict_get details "scraped_specs"
       = match scrape_specs soup with
         | [] => None
         | specs => Some (specs_value specs)
         end.
Proof.
  destruct (extract_detailed_bike_info_frame soup) as (details & Hex & _ & Hs).
  by exists details.
Qed.

End MoreDetail.

Section MoreScrape.
Import PyStr Soup Py.

Lemma add_row_pair (specs : list (string * string)) (row : node) :
  add_row specs row
  = match row_pair row with
    | Some kv => dict_set specs kv.1 kv.2
    | None => specs
    end.
Proof.
  unfold add_row, row_pair.
  destruct (find_all "div" Discovery.any_tag row) as [|c0 [|c1 [|c2 l]]]; done.
Qed.

Lemma dict_get_None_keys {V} (d : list (string * V)) (k : string) :
  dict_get d k = None <-> k ∉ d.*1.
Proof.
  induction d as [|[k' v] d IH]; cbn.
  - split; [intros _; apply not_elem_of_nil | done].
  - rewrite not_elem_of_cons. destruct (String.eqb k' k) eqn:E.
    + apply String.eqb_eq in E. subst. split; [done | intros [? _]; done].
    + apply String.eqb_neq in E. rewrite IH. split; [by split | tauto].
Qed.

Lemma dict_set_keys {V} (d : list (string * V)) (k : string) (v : V) :
  (dict_set d k v).*1 = if dict_has d k then d.*1 else d.*1 ++ [k].
Proof.
  unfold dict_has. induction d as [|[k' v'] d IH]; cbn; [done|].
  destruct (String.eqb k' k) eqn:E; cbn; [done|].
  rewrite IH. by destruct (dict_get d k).
Qed.

Lemma dict_set_NoDup {V} (d : list (string * V)) (k : string) (v : V) :
  NoDup d.*1 -> NoDup (dict_set d k v).*1.
Proof.
  intros Hd. rewrite dict_set_keys. unfold dict_has.
  destruct (dict_get d k) eqn:E; [done|].
  apply NoDup_app. split; [done|]. split; [|apply NoDup_singleton].
  intros x Hx ->%list_elem_of_singleton. by apply dict_get_None_keys in E.
Qed.

(** X10.  No label occurs twice in the scraped mapping, however often the
    tables of the page repeat it. *)
Theorem scrape_specs_labels_distinct (soup : node) :
  NoDup (scrape_specs soup).*1.
Proof.
  unfold scrape_specs.
  assert (forall rows acc, NoDup acc.*1 ->
            NoDup (fold_left add_row rows acc).*1) as H.
  { induction rows as [|row rows IH]; intros acc Hacc; [done|].
    cbn. apply IH. rewrite add_row_pair.
    destruct (row_pair row) as [kv|]; [|done]. by apply dict_set_NoDup. }
  apply H. constructor.
Qed.

(** X11.  The value the scraped mapping holds for a label is the value of
    the last row with that label, rows taken card by card in document order;
    a label no row has is not in the mapping. *)
Theorem scrape_specs_last_row_wins (soup : node) (label : string) :
  dict_get (scrape_specs soup) label
  = snd <$> last (filter (fun kv => kv.1 = label) (omap row_pair (spec_rows soup))).
Proof.
  unfold scrape_specs.
  assert (forall rows acc,
            dict_get (fold_left add_row rows acc) label
            = match last (filter (fun kv : string * string => kv.1 = label)
                                 (omap row_pair rows)) with
              | Some kv => Some kv.2
              | None => dict_get acc label
              end) as H.
  { induction rows as [|row rows IH]; intros acc; [done|].
    cbn [fold_left omap list_omap]. rewrite IH, add_row_pair.
    destruct (row_pair row) as [[k v]|]; [|done].
    rewrite filter_cons. cbn [fst snd]. case_decide as Hk.
    - subst k. rewrite last_cons, dict_get_set_eq.
      by destruct (last (filter _ (omap row_pair rows))).
    - by rewrite dict_get_set_ne. }
  rewrite H. by destruct (last _).
Qed.

End MoreScrape.

(** ** The JSON-LD block *)

Section MoreBlock.
Import PyStr Soup Py.

Lemma unwrap_graph_wrapped (data : pydict) (e : pyval) (rest : list pyval)
    (d : pydict) :
  dict_get data "@graph" = Some (PList (e :: rest)) ->
  unwrap_graph (PDict data) d = (d, Some e).
Proof.
  intros H. unfold unwrap_graph, Try.bind, Try.eval, py_in, dict_has, py_getitem.
  by rewrite H.
Qed.

(** The block from the unwrapped value on. *)
Lemma body_after_unwrap (json_loads : string -> option pyval) (script : node)
    (data : pyval) (d : pydict) :
  load_script json_loads script = Some data ->
  json_ld_body json_loads script d
  = Try.bind (unwrap_graph data)
      (fun data =>
         Try.bind (basic_info_block data)
           (fun _ => Try.bind (engine_block data)
                       (fun _ => Try.bind (price_block data)
                                   (fun _ => brand_block data)))) d.
Proof.
  intros H. unfold json_ld_body. unfold Try.bind at 1, Try.eval at 1.
  by rewrite H.
Qed.

(** X12.  A block wrapped in [@graph] is read as the first entry of the
    graph: when that entry is no object holding [@graph] itself, the page
    gives the same record as with a decoder that yields the entry alone. *)
Theorem graph_wrapper_same_as_first_entry
    (loads1 loads2 : string -> option pyval) (soup script : node)
    (data : pydict) (e : pyval) (rest : list pyval) :
  find_product_schema soup = Some script ->
  load_script loads1 script = Some (PDict data) ->
  dict_get data "@graph" = Some (PList (e :: rest)) ->
  load_script loads2 script = Some e ->
  (forall ed, e = PDict ed -> dict_get ed "@graph" = None) ->
  extract_detailed_bike_info loads1 soup = extract_detailed_bike_info loads2 soup.
Proof.
  intros Hfind H1 Hgraph H2 He.
  unfold extract_detailed_bike_info. f_equal.
  unfold structured_part. rewrite Hfind. unfold Try.except.
  rewrite (body_after_unwrap loads1 script _ _ H1),
    (body_after_unwrap loads2 script _ _ H2).
  set (K := fun data : pyval =>
              Try.bind (basic_info_block data)
                (fun _ => Try.bind (engine_block data)
                            (fun _ => Try.bind (price_block data)
                                        (fun _ => brand_block data)))).
  unfold Try.bind at 1. rewrite (unwrap_graph_wrapped data e rest [] Hgraph).
  assert (forall x, (forall xd, x <> PDict xd) -> K x [] = ([], None)) as Hraise.
  { intros x Hx. unfold K, Try.bind, basic_info_block, Try.bind, Try.eval, py_get.
    destruct x as [| | | | | |xd]; try reflexivity. by destruct (Hx xd). }
  unfold Try.bind, unwrap_graph, Try.bind, Try.eval, Try.ret, py_in, dict_has,
    py_getitem.
  destruct e as [| | | |s|l|ed]; try (by rewrite Hraise).
  - rewrite Hraise by done. by destruct (contains "@graph" s).
  - rewrite Hraise by done. by destruct (existsb (eq_str "@graph") l).
  - by rewrite (He ed eq_refl).
Qed.

Lemma graph_wrapper_same_as_first_entry_witness :
  extract_detailed_bike_info MoreSamples.loads_wrapped MoreSamples.graph_page
  = extract_detailed_bike_info MoreSamples.loads_entry MoreSamples.graph_page.
Proof.
  apply (graph_wrapper_same_as_first_entry
           MoreSamples.loads_wrapped MoreSamples.loads_entry
           MoreSamples.graph_page (Samples.schema_script MoreSamples.graph_text)
           MoreSamples.wrapped_block (PDict MoreSamples.entry_block)
           [PStr "second"]); try reflexivity.
  intros ed [= <-]. reflexivity.
Defined.

Lemma engine_block_raises (data d : pydict) (ve : pyval) :
  dict_get data "vehicleEngine" = Some ve ->
  (forall e, first_engine ve <> PDict e) ->
  engine_block (PDict data) d = (d, None).
Proof.
  intros Hve Hno.
  unfold engine_block, Try.bind, Try.eval, py_in, dict_has, py_getitem.
  rewrite Hve. cbn [Try.when Try.ret].
  destruct (first_engine ve) as [| | | | | |e] eqn:E; try reflexivity.
  by destruct (Hno e).
Qed.

(** X13.  When the block is an object whose engine value is no object (a
    text, a number, a list that starts with one), the [get] on it raises
    inside the [try]: the record keeps the [basic_info] written before and
    gets no [engine], and no [price] or [brand] either, even when the block
    has good offers and brand. *)
Theorem bad_engine_drops_price_and_brand
    (json_loads : string -> option pyval) (soup script : node)
    (data : pydict) (ve : pyval) :
  find_product_schema soup = Some script ->
  load_script json_loads script = Some (PDict data) ->
  dict_get data "@graph" = None ->
  dict_get data "vehicleEngine" = Some ve ->
  (forall e, first_engine ve <> PDict e) ->
  exists details,
    extract_detailed_bike_info json_loads soup = Some details
    /\ dict_get details "basic_info" = Some (PDict (basic_info_of data))
    /\ dict_get details "engine" = None
    /\ dict_get details "price" = None
    /\ dict_get details "brand" = None.
Proof.
  intros Hfind Hload Hgraph Hve Hno.
  assert (structured_part json_loads soup
          = [("basic_info", PDict (basic_info_of data))]) as Hsp.
  { unfold structured_part. rewrite Hfind. unfold Try.except.
    rewrite (body_after_unwrap json_loads script _ _ Hload).
    unfold Try.bind at 1.
    assert (unwrap_graph (PDict data) [] = ([], Some (PDict data))) as ->.
    { unfold unwrap_graph, Try.bind, Try.eval, py_in, dict_has.
      by rewrite Hgraph. }
    unfold Try.bind at 1.
    change (basic_info_block (PDict data) [])
      with ([("basic_info", PDict (basic_info_of data))], Some tt).
    unfold Try.bind at 1.
    by rewrite (engine_block_raises data _ ve Hve Hno). }
  destruct (extract_detailed_bike_info_spec json_loads soup)
    as (details & Hex & Hkeys & _ & _).
  exists details. split; [done|].
  rewrite !Hkeys, Hsp by (unfold structured_key; tauto). done.
Qed.

Lemma bad_engine_drops_price_and_brand_witness :
  exists details,
    extract_detailed_bike_info MoreSamples.loads_bad_engine
                               MoreSamples.bad_engine_page = Some details
    /\ dict_get details "basic_info"
       = Some (PDict (basic_info_of MoreSamples.bad_engine_block))
    /\ dict_get details "engine" = None
    /\ dict_get details "price" = None
    /\ dict_get details "brand" = None.
Proof.
  apply (bad_engine_drops_price_and_brand
           MoreSamples.loads_bad_engine MoreSamples.bad_engine_page
           (Samples.schema_script MoreSamples.bad_engine_text)
           MoreSamples.bad_engine_block (PStr "348 cc")); try reflexivity.
  intros e. discriminate.
Defined.

End MoreBlock.

(** ** The merge *)

Section MoreMerge.
Import Py.

Lemma dict_set_same {V} (d : list (string * V)) (k : string) (v : V) :
  dict_get d k = Some v -> dict_set d k v = d.
Proof.
  induction d as [|[k' v'] d IH]; cbn; [done|].
  destruct (String.eqb k' k); [by intros [= ->]|].
  intros H. by rewrite IH.
Qed.

(** What a merge that returned did, read off its result. *)
Lemma merge_list_info_inv (b : bike) (d final : pydict) :
  merge_list_info b d = Some final ->
  exists bi0,
    (dict_get d "basic_info" = None /\ bi0 = []
     \/ dict_get d "basic_info" = Some (PDict bi0))
    /\ dict_get final "basic_info"
       = Some (PDict (dict_set bi0 "name" (PStr (title b))))
    /\ dict_get final "price"
       = match dict_get d "price" with
         | Some entry => Some entry
         | None =>
             (fun p => PDict [("value", PStr p); ("currency", PStr "INR")])
               <$> exshowroom_price b
         end
    /\ (forall k, k <> "basic_info" -> k <> "price" ->
          dict_get final k = dict_get d k).
Proof.
  unfold merge_list_info.
  set (d0 := if negb (dict_has d "basic_info")
             then dict_set d "basic_info" (PDict []) else d).
  intros H.
  assert (exists bi0,
            (dict_get d "basic_info" = None /\ bi0 = []
             \/ dict_get d "basic_info" = Some (PDict bi0))
            /\ dict_get d0 "basic_info" = Some (PDict bi0)
            /\ forall k, k <> "basic_info" -> dict_get d0 k = dict_get d k)
    as (bi0 & Hcase & Hbi & Hrest).
  { unfold d0, dict_has in *.
    destruct (dict_get d "basic_info") as [v|] eqn:E; cbn [negb] in *.
    - rewrite E in H. destruct v; try discriminate.
      eexists. split; [by right|]. by split.
    - exists []. split; [by left|]. split; [apply dict_get_set_eq|].
      intros k Hk. by apply dict_get_set_ne. }
  rewrite Hbi in H. cbn [mbind option_bind] in H.
  set (d1 := dict_set d0 "basic_info"
                      (PDict (dict_set bi0 "name" (PStr (title b))))) in H.
  assert (dict_get d1 "price" = dict_get d "price") as Hprice.
  { unfold d1. rewrite dict_get_set_ne by done. by apply Hrest. }
  assert (forall k, k <> "basic_info" -> dict_get d1 k = dict_get d k) as Hd1.
  { intros k Hk. unfold d1. rewrite dict_get_set_ne by done. by apply Hrest. }
  assert (dict_get d1 "basic_info"
          = Some (PDict (dict_set bi0 "name" (PStr (title b))))) as Hd1bi.
  { unfold d1. apply dict_get_set_eq. }
  exists bi0. split; [done|].
  injection H as <-. unfold dict_has. rewrite Hprice.
  destruct (exshowroom_price b) as [p|], (dict_get d "price") as [entry|] eqn:E;
    cbn [negb fmap option_fmap option_map].
  - repeat split; [done | by rewrite Hprice | intros; by apply Hd1].
  - repeat split.
    + by rewrite dict_get_set_ne.
    + apply dict_get_set_eq.
    + intros k Hk1 Hk2. rewrite dict_get_set_ne by done. by apply Hd1.
  - repeat split; [done | by rewrite Hprice | intros; by apply Hd1].
  - repeat split; [done | by rewrite Hprice | intros; by apply Hd1].
Qed.

(** X14.  A merge that returns passes everything else through: every key
    of the record besides [basic_info] and [price] keeps its value, and
    inside [basic_info] every field besides [name] keeps its value. *)
Theorem merge_passes_other_fields (b : bike) (d final : pydict) :
  merge_list_info b d = Some final ->
  (forall k, k <> "basic_info" -> k <> "price" ->
     dict_get final k = dict_get d k)
  /\ exists basic_info',
       dict_get final "basic_info" = Some (PDict basic_info')
       /\ forall basic_info field,
            dict_get d "basic_info" = Some (PDict basic_info) ->
            field <> "name" ->
            dict_get basic_info' field = dict_get basic_info field.
Proof.
  intros H. apply merge_list_info_inv in H as (bi0 & Hcase & Hbi & _ & Hrest).
  split; [done|]. eexists. split; [exact Hbi|].
  intros bi f Hd Hf. destruct Hcase as [[Hnone _]|Hsome]; [congruence|].
  rewrite Hd in Hsome. injection Hsome as ->. by rewrite dict_get_set_ne.
Qed.

Lemma merge_passes_other_fields_witness :
  (forall k, k <> "basic_info" -> k <> "price" ->
     dict_get (default [] (merge_list_info Samples.cb350 MoreSamples.plain_details)) k
     = dict_get MoreSamples.plain_details k)
  /\ exists basic_info',
       dict_get (default [] (merge_list_info Samples.cb350 MoreSamples.plain_details))
                "basic_info" = Some (PDict basic_info')
       /\ forall basic_info field,
            dict_get MoreSamples.plain_details "basic_info" = Some (PDict basic_info) ->
            field <> "name" ->
            dict_get basic_info' field = dict_get basic_info field.
Proof.
  exact (merge_passes_other_fields Samples.cb350 MoreSamples.plain_details _ eq_refl).
Defined.

(** X15.  Merging the list entry into a record it was already merged into
    changes nothing. *)
Theorem merge_list_info_idempotent (b : bike) (d final : pydict) :
  merge_list_info b d = Some final -> merge_list_info b final = Some final.
Proof.
  intros H. apply merge_list_info_inv in H as (bi0 & _ & Hbi & Hprice & _).
  unfold merge_list_info, dict_has. rewrite Hbi. cbn [negb]. rewrite Hbi.
  cbn [mbind option_bind].
  rewrite (dict_set_same (dict_set bi0 "name" (PStr (title b))) "name")
    by apply dict_get_set_eq.
  rewrite (dict_set_same final "basic_info") by done.
  destruct (exshowroom_price b) as [p|]; [|done].
  rewrite Hprice. by destruct (dict_get d "price").
Qed.

Lemma merge_list_info_idempotent_witness :
  merge_list_info Samples.cb350
    (default [] (merge_list_info Samples.cb350 MoreSamples.plain_details))
  = Some (default [] (merge_list_info Samples.cb350 MoreSamples.plain_details)).
Proof.
  exact (merge_list_info_idempotent Samples.cb350 MoreSamples.plain_details _ eq_refl).
Defined.

End MoreMerge.

(** ** The processing loop and [main] *)

Section MoreLoop.
Import Py.
Variable json_loads : string -> option pyval.
Variable parse_html : string -> node.
Variable download : string -> string -> option string.

(** One turn either changes nothing or saves one new record: the record
    file was missing, the page comes from the cache or from a download into
    a missing cache file, and the record is the merge of the list entry into
    what extraction gives on the parsed page. *)
Lemma process_bike_writes (b : bike) (fs fs' : files) (n n' : nat) :
  process_bike json_loads parse_html download b (fs, n) = Some (fs', n') ->
  (fs' = fs /\ n' = n)
  \/ (records fs !! record_path b = None
      /\ exists text d details,
           (pages fs !! page_path b = Some text /\ pages fs' = pages fs
            \/ pages fs !! page_path b = None
               /\ download (link b) (page_path b) = Some text
               /\ pages fs' = <[page_path b := text]> (pages fs))
           /\ extract_detailed_bike_info json_loads (parse_html text) = Some d
           /\ merge_list_info b d = Some details
           /\ records fs' = <[record_path b := details]> (records fs)
           /\ n' = S n).
Proof.
  unfold process_bike. fold (record_path b). fold (page_path b).
  case_bool_decide as Hrec.
  { intros [= <- <-]. by left. }
  assert (records fs !! record_path b = None) as Hnone.
  { destruct (records fs !! record_path b) eqn:E; [|done].
    exfalso. apply Hrec. by eexists. }
  case_bool_decide as Hpage.
  - destruct (pages fs !! page_path b) as [text|] eqn:Etext;
      cbn [mbind option_bind]; [|discriminate].
    destruct (extract_detailed_bike_info json_loads (parse_html text)) as [d|] eqn:Ed;
      cbn [mbind option_bind]; [|discriminate].
    destruct (merge_list_info b d) as [d'|] eqn:Em; cbn [mbind option_bind];
      [|discriminate].
    intros [= <- <-]. right. split; [done|]. exists text, d, d'. cbn.
    repeat split; try done. by left.
  - unfold download_page.
    assert (pages fs !! page_path b = None) as Hpnone.
    { destruct (pages fs !! page_path b) eqn:E; [|done].
      exfalso. apply Hpage. by eexists. }
    destruct (download (link b) (page_path b)) as [text|] eqn:Hdl.
    + cbn [pages records]. rewrite lookup_insert_eq. cbn [mbind option_bind].
      destruct (extract_detailed_bike_info json_loads (parse_html text)) as [d|] eqn:Ed;
        cbn [mbind option_bind]; [|discriminate].
      destruct (merge_list_info b d) as [d'|] eqn:Em; cbn [mbind option_bind];
        [|discriminate].
      intros [= <- <-]. right. split; [done|]. exists text, d, d'. cbn.
      repeat split; try done. by right.
    + intros [= <- <-]. by left.
Qed.

Lemma process_bike_grows (b : bike) (fs fs' : files) (n n' : nat) :
  process_bike json_loads parse_html download b (fs, n) = Some (fs', n') ->
  records fs ⊆ records fs' /\ pages fs ⊆ pages fs'
  /\ size (records fs') + n = size (records fs) + n'.
Proof.
  intros H. apply process_bike_writes in H
    as [[-> ->]|(Hnone & text & d & details & Hpages & _ & _ & Hrec & ->)];
    [done|].
  rewrite Hrec. split; [by apply insert_subseteq|]. split.
  - destruct Hpages as [[_ ->]|(Hp & _ & ->)]; [done | by apply insert_subseteq].
  - rewrite map_size_insert_None by done. lia.
Qed.

Lemma process_bikes_grows (bikes_list : list bike) :
  forall fs fs' n n',
    process_bikes json_loads parse_html download bikes_list (fs, n) = Some (fs', n') ->
    records fs ⊆ records fs' /\ pages fs ⊆ pages fs'
    /\ size (records fs') + n = size (records fs) + n'.
Proof.
  induction bikes_list as [|b rest IH]; intros fs fs' n n' H.
  - by injection H as <- <-.
  - cbn [process_bikes] in H.
    destruct (process_bike json_loads parse_html download b (fs, n))
      as [[fs1 n1]|] eqn:Hstep; [|discriminate].
    cbn [mbind option_bind] in H. apply process_bike_grows in Hstep as (Hr1 & Hp1 & Hs1).
    apply IH in H as (Hr2 & Hp2 & Hs2).
    split; [by etrans|]. split; [by etrans|]. lia.
Qed.


(** X17.  [success_count] is the number of record files the run added. *)
Theorem success_count_counts_new_records
    (bikes_list : list bike) (fs fs' : files) (success_count : nat) :
  run json_loads parse_html download bikes_list fs = Some (fs', success_count) ->
  size (records fs') = size (records fs) + success_count.
Proof.
  unfold run. intros H. apply process_bikes_grows in H as (_ & _ & Hs). lia.
Qed.


(** A record file the loop added is the file of an entry of the list and
    has the title of that entry as [name]. *)
Lemma new_records_from_list (bikes_list : list bike) :
  forall (fs fs' : files) (n n' : nat) (path : string) (details : pydict),
    process_bikes json_loads parse_html download bikes_list (fs, n) = Some (fs', n') ->
    records fs !! path = None ->
    records fs' !! path = Some details ->
    exists b basic_info,
      b ∈ bikes_list
      /\ path = record_path b
      /\ dict_get details "basic_info" = Some (PDict basic_info)
      /\ dict_get basic_info "name" = Some (PStr (title b)).
Proof.
  induction bikes_list as [|b rest IH]; intros fs fs' n n' path details H Hold Hnew.
  - injection H as <- <-. congruence.
  - cbn [process_bikes] in H.
    destruct (process_bike json_loads parse_html download b (fs, n))
      as [[fs1 n1]|] eqn:Hstep; [|discriminate].
    cbn [mbind option_bind] in H.
    destruct (records fs1 !! path) as [x|] eqn:Hmid.
    + pose proof (process_bikes_grows rest fs1 fs' n1 n' H) as (Hsub & _ & _).
      assert (x = details) as ->.
      { pose proof (lookup_weaken _ _ _ _ Hmid Hsub). congruence. }
      apply process_bike_writes in Hstep
        as [[-> ->]|(_ & text & d & det & _ & _ & Hm & Hrec & _)]; [congruence|].
      rewrite Hrec in Hmid. rewrite lookup_insert in Hmid.
      case_decide as Hpath; [|congruence].
      injection Hmid as ->. subst path.
      apply merge_list_info_inv in Hm as (bi0 & _ & Hbi & _).
      exists b. eexists. split; [left|]. split; [done|]. split; [exact Hbi|].
      apply dict_get_set_eq.
    + destruct (IH fs1 fs' n1 n' path details H Hmid Hnew)
        as (b' & bi & Hin & Hp & Hbi & Hname).
      exists b', bi. split; [by right|]. done.
Qed.

(** X19.  Every record file a completed run added is the file of an entry
    of the list, and its [basic_info] has the title of such an entry as
    [name]. *)
Theorem new_records_carry_list_titles
    (bikes_list : list bike) (fs fs' : files) (success_count : nat)
    (path : string) (details : pydict) :
  run json_loads parse_html download bikes_list fs = Some (fs', success_count) ->
  records fs !! path = None ->
  records fs' !! path = Some details ->
  exists b basic_info,
    b ∈ bikes_list
    /\ path = record_path b
    /\ dict_get details "basic_info" = Some (PDict basic_info)
    /\ dict_get basic_info "name" = Some (PStr (title b)).
Proof. unfold run. apply new_records_from_list. Qed.


End MoreLoop.

Section LoopWitnesses.
Import Py.

Lemma sample_first_run :
  run Samples.loads_name_only Samples.parse_name_only Samples.download_cb350
      [Samples.cb350; Samples.hness] Samples.no_files
  = Some (Samples.after_first_run, 1).
Proof. vm_compute. reflexivity. Qed.


Lemma success_count_counts_new_records_witness :
  size (records Samples.after_first_run) = size (records Samples.no_files) + 1.
Proof.
  exact (success_count_counts_new_records _ _ _ _ _ _ _ sample_first_run).
Defined.



Lemma new_records_carry_list_titles_witness :
  exists b basic_info,
    b ∈ [Samples.cb350; Samples.hness]
    /\ "data/new_bike_details/Honda_CB350.json" = record_path b
    /\ dict_get (default [] (records Samples.after_first_run
                                !! "data/new_bike_details/Honda_CB350.json"))
                "basic_info" = Some (PDict basic_info)
    /\ dict_get basic_info "name" = Some (PStr (title b)).
Proof.
  apply (new_records_carry_list_titles _ _ _ _ _ _ _ _ _ sample_first_run).
  - reflexivity.
  - vm_compute. reflexivity.
Defined.


End LoopWitnesses.

Section MoreMain.
Import PyStr Soup Discovery.

(** X21.  The limit keeps a prefix of the discovered list: no limit and
    the limit 0 keep the whole list, a positive limit keeps at most that many
    entries from the front, and a negative limit drops that many entries from
    the end. *)
Theorem apply_limit_prefix_and_length (limit : option Z) (bikes_list : list bike) :
  apply_limit limit bikes_list `prefix_of` bikes_list
  /\ length (apply_limit limit bikes_list)
     = match limit with
       | None => length bikes_list
       | Some n =>
           if (n =? 0)%Z then length bikes_list
           else if (0 <? n)%Z then Nat.min (Z.to_nat n) (length bikes_list)
           else length bikes_list - Z.to_nat (- n)
       end.
Proof.
  unfold apply_limit, slice_to. destruct limit as [n|]; [|done].
  destruct (Z.eqb_spec n 0) as [->|Hn]; [done|].
  destruct (Z.leb_spec 0 n) as [Hpos|Hneg].
  - split; [apply prefix_take|]. rewrite length_take.
    destruct (Z.ltb_spec 0 n); [done | lia].
  - split; [apply prefix_take|]. rewrite length_take.
    destruct (Z.ltb_spec 0 n); lia.
Qed.



(** The first call of the sample saved one record, for a list cut to one
    entry. *)
Example first_main_saved :
  saved MoreSamples.first_main = 1
  /\ (length <$> saved_list MoreSamples.first_main) = Some 1.
Proof. by vm_compute. Qed.

End MoreMain.

(** ** Class filters *)

Section MoreClass.
Import PyStr Soup Discovery.

Lemma startswith_app (n a b : string) :
  startswith n a = true -> startswith n (a +:+ b) = true.
Proof.
  revert a. induction n as [|c n IH]; intros a; [done|].
  destruct a as [|x a]; simpl; [discriminate|].
  intros [-> H]%andb_true_iff. by rewrite (IH a H).
Qed.

Lemma contains_app_l (n a b : string) :
  contains n a = true -> contains n (a +:+ b) = true.
Proof.
  induction a as [|x a IH].
  - cbn. rewrite orb_false_r. intros H.
    destruct n; [by destruct b | discriminate].
  - cbn [contains]. intros [H|H]%orb_true_iff.
    + change (String x a +:+ b) with (String x (a +:+ b)).
      cbn [contains]. change (String x (a +:+ b)) with (String x a +:+ b).
      by rewrite (startswith_app _ _ b H).
    + change (String x a +:+ b) with (String x (a +:+ b)).
      cbn [contains]. rewrite (IH H). apply orb_true_r.
Qed.

Lemma contains_app_r (n a b : string) :
  contains n b = true -> contains n (a +:+ b) = true.
Proof.
  intros H. induction a as [|x a IH]; [done|].
  change (String x a +:+ b) with (String x (a +:+ b)).
  cbn [contains]. rewrite IH. apply orb_true_r.
Qed.

Lemma contains_join (n sep t : string) (toks : list string) :
  t ∈ toks -> contains n t = true -> contains n (join sep toks) = true.
Proof.
  intros Hin Hn. unfold join. induction toks as [|x xs IH]; [by apply elem_of_nil in Hin|].
  destruct xs as [|y ys].
  - apply list_elem_of_singleton in Hin. by subst.
  - change (String.concat sep (x :: y :: ys))
      with (x +:+ sep +:+ String.concat sep (y :: ys)).
    apply elem_of_cons in Hin as [->|Hin].
    + by apply contains_app_l.
    + by apply contains_app_r, contains_app_r, IH.
Qed.

(** X23.  A list tag counts as a grid as soon as one of its class tokens
    holds "grid" and one holds "gap-4", in any order and among any other
    tokens: the filter is tried on the tokens joined by a space. *)
Theorem grid_class_recognised
    (tag : string) (toks : list string) (attrs : list (string * string))
    (children : list node) (t1 t2 : string) :
  t1 ∈ toks -> contains "grid" t1 = true ->
  t2 ∈ toks -> contains "gap-4" t2 = true ->
  class_matches_fn is_grid_class (Elem tag (Some toks) attrs children) = true.
Proof.
  intros H1 Hg H2 Hp. unfold class_matches_fn. cbn [get_class].
  apply orb_true_iff. right. unfold is_grid_class.
  pose proof (contains_join "grid" " " t1 toks H1 Hg) as Hgrid.
  rewrite Hgrid, (contains_join "gap-4" " " t2 toks H2 Hp).
  destruct (join " " toks); [discriminate | done].
Qed.

Lemma grid_class_recognised_witness :
  class_matches_fn is_grid_class
    (Elem "ul" (Some ["gap-4"; "md:grid-cols-3"]) [] []) = true.
Proof.
  apply (grid_class_recognised "ul" ["gap-4"; "md:grid-cols-3"] [] []
           "md:grid-cols-3" "gap-4").
  - right. left.
  - reflexivity.
  - left.
  - reflexivity.
Defined.

End MoreClass.
